(** * Event store core of zitadel: query builder, command matching,
    append-and-reduce protocol and the org-member projection.

  A shallow embedding of
  - [internal/eventstore] : [SearchQueryBuilder], [SearchQuery], [Columns];
  - [internal/command]    : [pushAppendAndReduce], [AppendAndReduce],
                            [queryAndReduce], [exists];
  - [internal/org/repository/view/model] : [OrgMemberView].

  Conventions.  Go's unsigned integers ([uint64], [uint16]) are values of
  [N]; the only narrowing conversion of the code, [uint16(i)], is written
  out as a remainder.  [int8] is a [Z].  A Go [error] result is an
  [option error] ([None] is [nil]).  A method with a pointer receiver that
  mutates its receiver takes the receiver's value and returns the new one. *)

From Stdlib Require Import List String Ascii Bool ZArith NArith Lia.
Import ListNotations.

Local Open Scope string_scope.

(* ------------------------------------------------------------------ *)
(** ** Errors *)

Module errors.

(** Modelled from the spec: the package [internal/errors] lies outside
    of the files embedded here.  The spec names the kinds ("internal error",
    "precondition failed", "invalid argument") and says that an error
    may wrap an underlying cause; the [Throw*] constructors take the
    parent, an identifier and a message, as their call sites show. *)
Inductive Kind : Type :=
| Internal
| PreconditionFailed
| InvalidArgument.

#[warnings="-register-all"]
Inductive error : Type :=
| Foreign (what : string)
    (* an error value made outside of this repository:
       encoding/json, the durable store, the context *)
| Caos (kind : Kind) (parent : option error) (id message : string).

Definition ThrowInternal (parent : option error) (id message : string) : error :=
  Caos Internal parent id message.

Definition ThrowPreconditionFailed (parent : option error) (id message : string) : error :=
  Caos PreconditionFailed parent id message.

Definition IsInternal (e : error) : bool :=
  match e with Caos Internal _ _ _ => true | _ => false end.

Definition IsPreconditionFailed (e : error) : bool :=
  match e with Caos PreconditionFailed _ _ _ => true | _ => false end.

(** The cause an error wraps, if any. *)
Definition Unwrap (e : error) : option error :=
  match e with Caos _ parent _ _ => parent | Foreign _ => None end.

End errors.

(* ------------------------------------------------------------------ *)
(** ** time.Time *)

Module time.

(** Go's [time.Time], as far as the code looks at it: the seconds since
    January 1, year 1 00:00:00 UTC and the nanoseconds within the second.
    The location pointer plays no role in [IsZero] and [Unix]. *)
Record Time : Type := mkTime {
  sec  : Z;   (* int64 *)
  nsec : Z    (* in [0, 999999999] *)
}.

Definition wrap64 (z : Z) : Z := (z + 2 ^ 63) mod 2 ^ 64 - 2 ^ 63.

Definition unixToInternal : Z :=
  (1969 * 365 + 1969 / 4 - 1969 / 100 + 1969 / 400) * 86400.

Definition internalToUnix : Z := - unixToInternal.

Definition IsZero (t : Time) : bool := (sec t =? 0)%Z && (nsec t =? 0)%Z.

Definition Unix (t : Time) : Z := wrap64 (sec t + internalToUnix).

(** The zero value of the type and the Unix epoch. *)
Definition zero : Time := mkTime 0 0.
Definition epoch : Time := mkTime unixToInternal 0.

Definition eqb (a b : Time) : bool := (sec a =? sec b)%Z && (nsec a =? nsec b)%Z.

End time.

(* ------------------------------------------------------------------ *)
(** ** Package eventstore *)

Module eventstore.

Import errors.

Definition AggregateType := string.
Definition EventType := string.

(** Modelled from the spec: [Aggregate] is declared in another file of
    the package; the spec gives an event or command its aggregate type
    and ID, its resource owner and its instance ID. *)
Record Aggregate : Type := mkAggregate {
  Aggregate_ID            : string;
  Aggregate_Type          : AggregateType;
  Aggregate_ResourceOwner : string;
  Aggregate_InstanceID    : string
}.

(** The [Command] interface as the matching code uses it: [Aggregate()],
    [Type()] and, for the commands whose dynamic type also implements
    [sequencer], [Sequence()] ([None] when the type assertion fails). *)
Record Command : Type := mkCommand {
  Command_Aggregate : Aggregate;
  Command_Type      : EventType;
  Command_Sequence  : option N
}.

(** The [Event] interface: a persisted command. *)
Record Event : Type := mkEvent {
  Event_Aggregate : Aggregate;
  Event_Type      : EventType;
  Event_Sequence  : N;
  Event_CreatedAt : time.Time;
  Event_Data      : string
}.

(** [float64] and [*sql.Tx] are carried by the builder and never
    inspected: a bit pattern and a handle. *)
Inductive float64 : Type := Float64bits (bits : N).
Definition sql_Tx := N.

Definition Columns := Z. (* int8 *)

Definition ColumnsEvent       : Columns := (0 + 1)%Z.
Definition ColumnsMaxSequence : Columns := (1 + 1)%Z.
Definition ColumnsInstanceIDs : Columns := (2 + 1)%Z.
Definition columnsCount       : Columns := (3 + 1)%Z.

(** A sub query.  The back pointer [builder] of the Go struct is left
    out: it is only used by [Or] and [Builder]. *)
Record SearchQuery : Type := mkSearchQuery {
  aggregateTypes : list AggregateType;
  aggregateIDs   : list string;
  eventTypes     : list EventType;
  eventData      : list (string * string)
}.

Record SearchQueryBuilder : Type := mkSearchQueryBuilder {
  columns               : Columns;
  limit                 : N;              (* uint64 *)
  offset                : N;              (* uint16 *)
  desc                  : bool;
  resourceOwner         : string;
  instanceID            : option string;  (* *string *)
  editorUser            : string;
  queries               : list SearchQuery;
  tx                    : option sql_Tx;
  allowTimeTravel       : bool;
  positionAfter         : float64;
  awaitOpenTransactions : bool;
  creationDateAfter     : time.Time;
  creationDateBefore    : time.Time;
  eventSequenceGreater  : N               (* uint64 *)
}.

Definition GetCreationDateAfter (q : SearchQueryBuilder) : time.Time :=
  creationDateAfter q.

Definition GetCreationDateBefore (q : SearchQueryBuilder) : time.Time :=
  creationDateBefore q.

Definition Validate (c : Columns) : option error :=
  if ((c <=? 0) || (c >=? columnsCount))%Z
  then Some (ThrowPreconditionFailed None "REPOS-x8R35" "column out of range")
  else None.

Definition NewSearchQueryBuilder (columns : Columns) : SearchQueryBuilder :=
  {| columns := columns; limit := 0; offset := 0; desc := false;
     resourceOwner := ""; instanceID := None; editorUser := "";
     queries := []; tx := None; allowTimeTravel := false;
     positionAfter := Float64bits 0; awaitOpenTransactions := false;
     creationDateAfter := time.zero; creationDateBefore := time.zero;
     eventSequenceGreater := 0 |}.

(** *** Setters.  Each one assigns a field of the receiver and returns
    the receiver. *)

Definition Limit (limit : N) (builder : SearchQueryBuilder) : SearchQueryBuilder :=
  {| columns := columns builder; limit := limit; offset := offset builder;
     desc := desc builder; resourceOwner := resourceOwner builder;
     instanceID := instanceID builder; editorUser := editorUser builder;
     queries := queries builder; tx := tx builder;
     allowTimeTravel := allowTimeTravel builder;
     positionAfter := positionAfter builder;
     awaitOpenTransactions := awaitOpenTransactions builder;
     creationDateAfter := creationDateAfter builder;
     creationDateBefore := creationDateBefore builder;
     eventSequenceGreater := eventSequenceGreater builder |}.

Definition Offset (offset : N) (builder : SearchQueryBuilder) : SearchQueryBuilder :=
  {| columns := columns builder; limit := limit builder; offset := offset;
     desc := desc builder; resourceOwner := resourceOwner builder;
     instanceID := instanceID builder; editorUser := editorUser builder;
     queries := queries builder; tx := tx builder;
     allowTimeTravel := allowTimeTravel builder;
     positionAfter := positionAfter builder;
     awaitOpenTransactions := awaitOpenTransactions builder;
     creationDateAfter := creationDateAfter builder;
     creationDateBefore := creationDateBefore builder;
     eventSequenceGreater := eventSequenceGreater builder |}.

Definition ResourceOwner (resourceOwner : string) (builder : SearchQueryBuilder)
  : SearchQueryBuilder :=
  {| columns := columns builder; limit := limit builder; offset := offset builder;
     desc := desc builder; resourceOwner := resourceOwner;
     instanceID := instanceID builder; editorUser := editorUser builder;
     queries := queries builder; tx := tx builder;
     allowTimeTravel := allowTimeTravel builder;
     positionAfter := positionAfter builder;
     awaitOpenTransactions := awaitOpenTransactions builder;
     creationDateAfter := creationDateAfter builder;
     creationDateBefore := creationDateBefore builder;
     eventSequenceGreater := eventSequenceGreater builder |}.

(** [builder.instanceID = &instanceID] for [Some], and the unset pointer
    for [None]. *)
Definition setInstanceID (instanceID : option string) (builder : SearchQueryBuilder)
  : SearchQueryBuilder :=
  {| columns := columns builder; limit := limit builder; offset := offset builder;
     desc := desc builder; resourceOwner := resourceOwner builder;
     instanceID := instanceID; editorUser := editorUser builder;
     queries := queries builder; tx := tx builder;
     allowTimeTravel := allowTimeTravel builder;
     positionAfter := positionAfter builder;
     awaitOpenTransactions := awaitOpenTransactions builder;
     creationDateAfter := creationDateAfter builder;
     creationDateBefore := creationDateBefore builder;
     eventSequenceGreater := eventSequenceGreater builder |}.

Definition InstanceID (instanceID : string) (builder : SearchQueryBuilder)
  : SearchQueryBuilder :=
  setInstanceID (Some instanceID) builder.

Definition SequenceGreater (sequence : N) (builder : SearchQueryBuilder)
  : SearchQueryBuilder :=
  {| columns := columns builder; limit := limit builder; offset := offset builder;
     desc := desc builder; resourceOwner := resourceOwner builder;
     instanceID := instanceID builder; editorUser := editorUser builder;
     queries := queries builder; tx := tx builder;
     allowTimeTravel := allowTimeTravel builder;
     positionAfter := positionAfter builder;
     awaitOpenTransactions := awaitOpenTransactions builder;
     creationDateAfter := creationDateAfter builder;
     creationDateBefore := creationDateBefore builder;
     eventSequenceGreater := sequence |}.

Definition CreationDateAfter (creationDate : time.Time) (builder : SearchQueryBuilder)
  : SearchQueryBuilder :=
  if time.IsZero creationDate || (time.Unix creationDate =? 0)%Z
  then builder
  else
  {| columns := columns builder; limit := limit builder; offset := offset builder;
     desc := desc builder; resourceOwner := resourceOwner builder;
     instanceID := instanceID builder; editorUser := editorUser builder;
     queries := queries builder; tx := tx builder;
     allowTimeTravel := allowTimeTravel builder;
     positionAfter := positionAfter builder;
     awaitOpenTransactions := awaitOpenTransactions builder;
     creationDateAfter := creationDate;
     creationDateBefore := creationDateBefore builder;
     eventSequenceGreater := eventSequenceGreater builder |}.

Definition CreationDateBefore (creationDate : time.Time) (builder : SearchQueryBuilder)
  : SearchQueryBuilder :=
  if time.IsZero creationDate || (time.Unix creationDate =? 0)%Z
  then builder
  else
  {| columns := columns builder; limit := limit builder; offset := offset builder;
     desc := desc builder; resourceOwner := resourceOwner builder;
     instanceID := instanceID builder; editorUser := editorUser builder;
     queries := queries builder; tx := tx builder;
     allowTimeTravel := allowTimeTravel builder;
     positionAfter := positionAfter builder;
     awaitOpenTransactions := awaitOpenTransactions builder;
     creationDateAfter := creationDateAfter builder;
     creationDateBefore := creationDate;
     eventSequenceGreater := eventSequenceGreater builder |}.

(** [AddQuery] appends an empty sub query; the pointer it returns in Go
    designates the last element of [queries]. *)
Definition AddQuery (builder : SearchQueryBuilder) : SearchQueryBuilder :=
  {| columns := columns builder; limit := limit builder; offset := offset builder;
     desc := desc builder; resourceOwner := resourceOwner builder;
     instanceID := instanceID builder; editorUser := editorUser builder;
     queries := queries builder ++ [mkSearchQuery [] [] [] []]; tx := tx builder;
     allowTimeTravel := allowTimeTravel builder;
     positionAfter := positionAfter builder;
     awaitOpenTransactions := awaitOpenTransactions builder;
     creationDateAfter := creationDateAfter builder;
     creationDateBefore := creationDateBefore builder;
     eventSequenceGreater := eventSequenceGreater builder |}.

Definition AggregateTypes (types : list AggregateType) (query : SearchQuery) : SearchQuery :=
  {| aggregateTypes := types; aggregateIDs := aggregateIDs query;
     eventTypes := eventTypes query; eventData := eventData query |}.

Definition AggregateIDs (ids : list string) (query : SearchQuery) : SearchQuery :=
  {| aggregateTypes := aggregateTypes query; aggregateIDs := ids;
     eventTypes := eventTypes query; eventData := eventData query |}.

Definition EventTypes (types : list EventType) (query : SearchQuery) : SearchQuery :=
  {| aggregateTypes := aggregateTypes query; aggregateIDs := aggregateIDs query;
     eventTypes := types; eventData := eventData query |}.

(** *** Matching *)

(** Modelled from the spec: [isAggregateTypes], [isAggregateIDs] and
    [isEventTypes] are declared in another file of the package.
    By the spec a filter field matches when it
    contains the command's corresponding value: its aggregate type, its
    aggregate ID, its event type. *)
Definition isAggregateTypes (a : Aggregate) (types : list AggregateType) : bool :=
  existsb (fun typ => String.eqb (Aggregate_Type a) typ) types.

Definition isAggregateIDs (a : Aggregate) (ids : list string) : bool :=
  existsb (fun id => String.eqb (Aggregate_ID a) id) ids.

Definition isEventTypes (command : Command) (types : list EventType) : bool :=
  existsb (fun typ => String.eqb (Command_Type command) typ) types.

Definition matches (query : SearchQuery) (command : Command) : bool :=
  if (0 <? List.length (aggregateTypes query))%nat
     && negb (isAggregateTypes (Command_Aggregate command) (aggregateTypes query))
  then false
  else if (0 <? List.length (aggregateIDs query))%nat
     && negb (isAggregateIDs (Command_Aggregate command) (aggregateIDs query))
  then false
  else if (0 <? List.length (eventTypes query))%nat
     && negb (isEventTypes command (eventTypes query))
  then false
  else true.

Definition matchCommand (builder : SearchQueryBuilder) (command : Command) : bool :=
  if negb (String.eqb (resourceOwner builder) "")
     && negb (String.eqb (Aggregate_ResourceOwner (Command_Aggregate command))
                         (resourceOwner builder))
  then false
  else if negb (String.eqb (Aggregate_InstanceID (Command_Aggregate command)) "")
     && match instanceID builder with
        | None => false
        | Some id =>
            negb (String.eqb id "")
            && negb (String.eqb (Aggregate_InstanceID (Command_Aggregate command)) id)
        end
  then false
  else if match Command_Sequence command with
          | Some seq =>
              (0 <? eventSequenceGreater builder)%N
              && (seq <=? eventSequenceGreater builder)%N
          | None => false
          end
  then false
  else if (List.length (queries builder) =? 0)%nat
  then true
  else existsb (fun query => matches query command) (queries builder).

(** [uint16(i)] for an index [i] of type [int]. *)
Definition uint16 (i : N) : N := (i mod 2 ^ 16)%N.

(** The loop of [Matches]: [i] is the index of the head of [commands] in
    the argument slice, [matches] the slice collected so far. *)
Fixpoint Matches_loop (builder : SearchQueryBuilder) (i : N)
    (commands matches : list Command) : list Command :=
  match commands with
  | [] => matches
  | command :: rest =>
      if (0 <? limit builder)%N && (limit builder <=? N.of_nat (List.length matches))%N
      then matches                                           (* break *)
      else if (0 <? offset builder)%N && (uint16 i <? offset builder)%N
      then Matches_loop builder (i + 1) rest matches         (* continue *)
      else if matchCommand builder command
      then Matches_loop builder (i + 1) rest (matches ++ [command])
      else Matches_loop builder (i + 1) rest matches
  end.

Definition Matches (builder : SearchQueryBuilder) (commands : list Command)
  : list Command :=
  Matches_loop builder 0 commands [].

(** The result the spec describes for [Matches]: the commands that satisfy
    the builder's predicate, in order; of these the first [offset] are
    skipped, and [limit] of the rest are kept when [limit > 0]. *)
Definition take_limit {A : Type} (limit : N) (l : list A) : list A :=
  if (0 <? limit)%N then firstn (N.to_nat limit) l else l.

Definition Matches_spec (builder : SearchQueryBuilder) (commands : list Command)
  : list Command :=
  take_limit (limit builder)
    (skipn (N.to_nat (offset builder)) (filter (matchCommand builder) commands)).

(** *** The matching rules in the words of the spec *)

(** Gates 1 to 3: the resource owner filter, if set, equals the command's
    resource owner; the instance ID filter, if set and non-empty, equals
    the command's instance ID, enforced only when the command carries a
    non-empty instance ID; a command that exposes a sequence has it
    strictly greater than [eventSequenceGreater], if that is set. *)
Definition resourceOwnerGate (builder : SearchQueryBuilder) (command : Command) : Prop :=
  resourceOwner builder = ""
  \/ Aggregate_ResourceOwner (Command_Aggregate command) = resourceOwner builder.

Definition instanceIDGate (builder : SearchQueryBuilder) (command : Command) : Prop :=
  Aggregate_InstanceID (Command_Aggregate command) = ""
  \/ instanceID builder = None
  \/ instanceID builder = Some ""
  \/ instanceID builder = Some (Aggregate_InstanceID (Command_Aggregate command)).

Definition sequenceGate (builder : SearchQueryBuilder) (command : Command) : Prop :=
  match Command_Sequence command with
  | Some seq => eventSequenceGreater builder = 0%N \/ (eventSequenceGreater builder < seq)%N
  | None => True
  end.

Definition passesGates (builder : SearchQueryBuilder) (command : Command) : Prop :=
  resourceOwnerGate builder command
  /\ instanceIDGate builder command
  /\ sequenceGate builder command.

(** A sub query matches when each of its non-empty filter fields contains
    the command's value; an empty field holds vacuously. *)
Definition subQueryMatches (query : SearchQuery) (command : Command) : Prop :=
  (aggregateTypes query = []
   \/ In (Aggregate_Type (Command_Aggregate command)) (aggregateTypes query))
  /\ (aggregateIDs query = []
   \/ In (Aggregate_ID (Command_Aggregate command)) (aggregateIDs query))
  /\ (eventTypes query = []
   \/ In (Command_Type command) (eventTypes query)).

(** The fields of a builder other than the two creation-date bounds. *)
Definition fieldsButCreationDates (b : SearchQueryBuilder) :=
  (columns b, limit b, offset b, desc b, resourceOwner b, instanceID b,
   editorUser b, queries b, tx b, allowTimeTravel b, positionAfter b,
   awaitOpenTransactions b, eventSequenceGreater b).

(** *** Builders and commands to run the matching on *)

Definition plainCommand (aggregateType id instance eventType : string) : Command :=
  mkCommand (mkAggregate id aggregateType "ro-1" instance) eventType None.

Definition sequencedCommand (aggregateType id : string) (seq : N) : Command :=
  mkCommand (mkAggregate id aggregateType "ro-1" "") "added" (Some seq).

(** Two sub queries: users with ID [u1], or [org.added] events of orgs. *)
Definition twoSubQueries : SearchQueryBuilder :=
  let builder := NewSearchQueryBuilder ColumnsEvent in
  {| columns := columns builder; limit := limit builder; offset := offset builder;
     desc := desc builder; resourceOwner := resourceOwner builder;
     instanceID := instanceID builder; editorUser := editorUser builder;
     queries :=
       [ AggregateIDs ["u1"] (AggregateTypes ["user"] (mkSearchQuery [] [] [] []));
         EventTypes ["org.added"] (AggregateTypes ["org"] (mkSearchQuery [] [] [] [])) ];
     tx := tx builder;
     allowTimeTravel := allowTimeTravel builder;
     positionAfter := positionAfter builder;
     awaitOpenTransactions := awaitOpenTransactions builder;
     creationDateAfter := creationDateAfter builder;
     creationDateBefore := creationDateBefore builder;
     eventSequenceGreater := eventSequenceGreater builder |}.

Definition onlySecond  : Command := plainCommand "org" "o1" "" "org.added".
Definition neither     : Command := plainCommand "project" "p1" "" "project.added".
Definition partlyFirst : Command := plainCommand "user" "u2" "" "user.added".

Definition tenantX : SearchQueryBuilder :=
  InstanceID "tenant-x" (NewSearchQueryBuilder ColumnsEvent).

Definition noTenant : Command := plainCommand "org" "o1" "" "org.added".
Definition tenantY  : Command := plainCommand "org" "o1" "tenant-y" "org.added".

(** A builder that keeps the commands of aggregate type [T]. *)
Definition onlyT (offset limit : N) : SearchQueryBuilder :=
  let builder := Limit limit (Offset offset (NewSearchQueryBuilder ColumnsEvent)) in
  {| columns := columns builder; limit := eventstore.limit builder;
     offset := eventstore.offset builder;
     desc := desc builder; resourceOwner := resourceOwner builder;
     instanceID := instanceID builder; editorUser := editorUser builder;
     queries := [ AggregateTypes ["T"] (mkSearchQuery [] [] [] []) ];
     tx := tx builder;
     allowTimeTravel := allowTimeTravel builder;
     positionAfter := positionAfter builder;
     awaitOpenTransactions := awaitOpenTransactions builder;
     creationDateAfter := creationDateAfter builder;
     creationDateBefore := creationDateBefore builder;
     eventSequenceGreater := eventSequenceGreater builder |}.

Definition cmdA : Command := sequencedCommand "T" "a" 1.
Definition cmdB : Command := sequencedCommand "T" "b" 2.
Definition cmdC : Command := sequencedCommand "T" "c" 3.
Definition cmdU : Command := sequencedCommand "U" "u" 1.

(** *** More of the builder *)

Definition EditorUser (id : string) (builder : SearchQueryBuilder) : SearchQueryBuilder :=
  {| columns := columns builder; limit := limit builder; offset := offset builder;
     desc := desc builder; resourceOwner := resourceOwner builder;
     instanceID := instanceID builder; editorUser := id;
     queries := queries builder; tx := tx builder;
     allowTimeTravel := allowTimeTravel builder;
     positionAfter := positionAfter builder;
     awaitOpenTransactions := awaitOpenTransactions builder;
     creationDateAfter := creationDateAfter builder;
     creationDateBefore := creationDateBefore builder;
     eventSequenceGreater := eventSequenceGreater builder |}.

(** [EventData]: the map is kept as the list of its entries; no code here
    reads it. *)
Definition EventData (data : list (string * string)) (query : SearchQuery) : SearchQuery :=
  {| aggregateTypes := aggregateTypes query; aggregateIDs := aggregateIDs query;
     eventTypes := eventTypes query; eventData := data |}.

(** [ensureInstanceID]: of the context only the instance ID that
    [authz.GetInstance(ctx).InstanceID()] returns is read. *)
Definition ensureInstanceID (ctxInstanceID : string) (b : SearchQueryBuilder)
  : SearchQueryBuilder :=
  if match instanceID b with None => true | Some _ => false end
     && negb (String.eqb ctxInstanceID "")
  then InstanceID ctxInstanceID b
  else b.

(** *** Sub queries through their pointers

    [AddQuery] returns a pointer to the sub query it appends, and the
    setters of a sub query assign through such a pointer.  [queries] holds
    pointers and only grows, so a pointer is the position of its sub query
    in [queries]. *)
Definition QueryRef := nat.

Definition setQueries (queries : list SearchQuery) (builder : SearchQueryBuilder)
  : SearchQueryBuilder :=
  {| columns := columns builder; limit := limit builder; offset := offset builder;
     desc := desc builder; resourceOwner := resourceOwner builder;
     instanceID := instanceID builder; editorUser := editorUser builder;
     queries := queries; tx := tx builder;
     allowTimeTravel := allowTimeTravel builder;
     positionAfter := positionAfter builder;
     awaitOpenTransactions := awaitOpenTransactions builder;
     creationDateAfter := creationDateAfter builder;
     creationDateBefore := creationDateBefore builder;
     eventSequenceGreater := eventSequenceGreater builder |}.

(** [AddQuery] with the pointer it returns. *)
Definition AddQueryAt (builder : SearchQueryBuilder) : SearchQueryBuilder * QueryRef :=
  (AddQuery builder, List.length (queries builder)).

Fixpoint assign (query : QueryRef) (set : SearchQuery -> SearchQuery)
    (queries : list SearchQuery) : list SearchQuery :=
  match queries, query with
  | [], _ => []
  | q :: rest, O => set q :: rest
  | q :: rest, S query => q :: assign query set rest
  end.

(** A setter of [*SearchQuery] called on the pointer [query]: the sub
    query is updated where it lies, in the builder. *)
Definition through (query : QueryRef) (set : SearchQuery -> SearchQuery)
    (builder : SearchQueryBuilder) : SearchQueryBuilder :=
  setQueries (assign query set (queries builder)) builder.

(** [Or]: [query.builder.AddQuery()], whatever [query] is. *)
Definition Or (query : QueryRef) (builder : SearchQueryBuilder)
  : SearchQueryBuilder * QueryRef :=
  AddQueryAt builder.

(** The chain [builder.AddQuery().AggregateTypes(..).AggregateIDs(..).EventTypes(..)]. *)
Definition addSubQuery (types : list AggregateType) (ids : list string)
    (events : list EventType) (builder : SearchQueryBuilder) : SearchQueryBuilder :=
  let '(builder, query) := AddQueryAt builder in
  let builder := through query (AggregateTypes types) builder in
  let builder := through query (AggregateIDs ids) builder in
  through query (EventTypes events) builder.

(** The chain [query.Or().AggregateTypes(..).AggregateIDs(..).EventTypes(..)]. *)
Definition orSubQuery (query : QueryRef) (types : list AggregateType) (ids : list string)
    (events : list EventType) (builder : SearchQueryBuilder) : SearchQueryBuilder :=
  let '(builder, query) := Or query builder in
  let builder := through query (AggregateTypes types) builder in
  let builder := through query (AggregateIDs ids) builder in
  through query (EventTypes events) builder.

(** *** [Matches] without its limit

    The commands the loop of [Matches] would collect from index [i] on if
    it never broke off: those it does not skip and [matchCommand]
    accepts. *)
Definition skips (builder : SearchQueryBuilder) (i : N) : bool :=
  (0 <? offset builder)%N && (uint16 i <? offset builder)%N.

Fixpoint collectFrom (builder : SearchQueryBuilder) (i : N) (commands : list Command)
  : list Command :=
  match commands with
  | [] => []
  | command :: rest =>
      if negb (skips builder i) && matchCommand builder command
      then command :: collectFrom builder (i + 1) rest
      else collectFrom builder (i + 1) rest
  end.

(** [l1] is [l2] with some elements left out, the order kept. *)
Inductive Subsequence {A : Type} : list A -> list A -> Prop :=
| Subsequence_nil : Subsequence [] []
| Subsequence_skip (x : A) (l1 l2 : list A) :
    Subsequence l1 l2 -> Subsequence l1 (x :: l2)
| Subsequence_keep (x : A) (l1 l2 : list A) :
    Subsequence l1 l2 -> Subsequence (x :: l1) (x :: l2).

(** The fields of a sub query that [matches] reads. *)
Definition filterFields (query : SearchQuery) :=
  (aggregateTypes query, aggregateIDs query, eventTypes query).

(** A call of one of the two setters of the creation-date bounds. *)
Inductive DateCall : Type :=
| CallCreationDateAfter (creationDate : time.Time)
| CallCreationDateBefore (creationDate : time.Time).

Definition applyDateCall (builder : SearchQueryBuilder) (call : DateCall)
  : SearchQueryBuilder :=
  match call with
  | CallCreationDateAfter creationDate => CreationDateAfter creationDate builder
  | CallCreationDateBefore creationDate => CreationDateBefore creationDate builder
  end.

End eventstore.

(* ------------------------------------------------------------------ *)
(** ** Package command: the append-and-reduce protocol *)

Module command.

Import errors eventstore.

(** The object returned by a method that mutates its receiver comes
    first, the method's own result after it. *)
Class AppendReducer (O : Type) : Type := {
  AppendEvents : list Event -> O -> O;
  Reduce : O -> O * option error
}.

(** [eventstore.QueryReducer]: an [AppendReducer] that builds its own
    query.  [Query] is a getter. *)
Class QueryReducer (W : Type) : Type := {
  QueryReducer_reducer :: AppendReducer W;
  Query : W -> SearchQueryBuilder
}.

Class existsWriteModel (W : Type) : Type := {
  existsWriteModel_QueryReducer :: QueryReducer W;
  Exists : W -> bool
}.

(** [preparation.FilterToQueryReducer], without its context. *)
Definition FilterToQueryReducer : Type :=
  SearchQueryBuilder -> list Event * option error.

(** The durable store behind [Commands.eventstore]: [Push] takes the
    store to its next state and returns the persisted events or an
    error. *)
Class Pusher (ES : Type) : Type := {
  Push : ES -> list Command -> ES * (list Event * option error)
}.

(** Of [Commands] only the event store takes part in the protocol. *)
Record Commands (ES : Type) : Type := mkCommands {
  Commands_eventstore : ES
}.
Arguments mkCommands {ES} _.
Arguments Commands_eventstore {ES} _.

Definition AppendAndReduce {O : Type} `{AppendReducer O}
    (object : O) (events : list Event) : O * option error :=
  let object := AppendEvents events object in
  Reduce object.

Definition pushAppendAndReduce {ES O : Type} `{Pusher ES} `{AppendReducer O}
    (c : Commands ES) (object : O) (cmds : list Command)
  : Commands ES * O * option error :=
  let '(es, (events, err)) := Push (Commands_eventstore c) cmds in
  match err with
  | Some err => (mkCommands es, object, Some err)
  | None =>
      let '(object, err) := AppendAndReduce object events in
      (mkCommands es, object, err)
  end.

Definition queryAndReduce {W : Type} `{QueryReducer W}
    (filter : FilterToQueryReducer) (wm : W) : W * option error :=
  let '(events, err) := filter (Query wm) in
  match err with
  | Some err => (wm, Some err)
  | None =>
      if (List.length events =? 0)%nat
      then (wm, None)
      else
        let wm := AppendEvents events wm in
        Reduce wm
  end.

Definition exists_ {W : Type} `{existsWriteModel W}
    (filter : FilterToQueryReducer) (wm : W) : W * (bool * option error) :=
  let '(wm, err) := queryAndReduce filter wm in
  match err with
  | Some err => (wm, (false, Some err))
  | None => (wm, (Exists wm, None))
  end.

(** *** An object that records the calls it receives

    Wrapping an [AppendReducer] so that every call of [AppendEvents] and of
    [Reduce] is logged makes "the method is not called" a statement about
    the log. *)
Inductive Call : Type :=
| CallAppendEvents (events : list Event)
| CallReduce.

Record Traced (O : Type) : Type := mkTraced {
  traced_object : O;
  traced_calls  : list Call
}.
Arguments mkTraced {O} _ _.
Arguments traced_object {O} _.
Arguments traced_calls {O} _.

Definition trace {O : Type} (object : O) : Traced O := mkTraced object [].

#[export] Instance Traced_AppendReducer {O : Type} `{AppendReducer O}
  : AppendReducer (Traced O) := {
  AppendEvents events t :=
    mkTraced (AppendEvents events (traced_object t))
             (traced_calls t ++ [CallAppendEvents events]);
  Reduce t :=
    let '(object, err) := Reduce (traced_object t) in
    (mkTraced object (traced_calls t ++ [CallReduce]), err)
}.

#[export] Instance Traced_QueryReducer {W : Type} `{QueryReducer W}
  : QueryReducer (Traced W) := {
  Query t := Query (traced_object t)
}.

#[export] Instance Traced_existsWriteModel {W : Type} `{existsWriteModel W}
  : existsWriteModel (Traced W) := {
  Exists t := Exists (traced_object t)
}.

(** *** A write model and a store to run the protocol on

    Modelled from the spec: the write models and the store are declared in
    other packages.  The spec's existence scenario has a write model of one
    aggregate, addressed by its ID, whose [Exists()] holds once an "added"
    event has been folded, and a store that answers a query with the
    persisted events matching it ("both must agree on result sets"). *)
Record OrgWriteModel : Type := mkOrgWriteModel {
  wm_AggregateID       : string;
  wm_Events            : list Event;   (* appended, not yet reduced *)
  wm_ProcessedSequence : N;
  wm_Added             : bool
}.

Definition NewOrgWriteModel (orgID : string) : OrgWriteModel :=
  mkOrgWriteModel orgID [] 0 false.

Definition OrgAggregateType : AggregateType := "org".
Definition OrgAddedEventType : EventType := "org.added".

Definition reduceEvent (wm : OrgWriteModel) (event : Event) : OrgWriteModel :=
  mkOrgWriteModel (wm_AggregateID wm) (wm_Events wm) (Event_Sequence event)
    (if String.eqb (Event_Type event) OrgAddedEventType then true else wm_Added wm).

#[export] Instance OrgWriteModel_AppendReducer : AppendReducer OrgWriteModel := {
  AppendEvents events wm :=
    mkOrgWriteModel (wm_AggregateID wm) (wm_Events wm ++ events)
      (wm_ProcessedSequence wm) (wm_Added wm);
  Reduce wm :=
    let wm' := fold_left reduceEvent (wm_Events wm) wm in
    (mkOrgWriteModel (wm_AggregateID wm') [] (wm_ProcessedSequence wm') (wm_Added wm'),
     None)
}.

#[export] Instance OrgWriteModel_QueryReducer : QueryReducer OrgWriteModel := {
  Query wm :=
    let builder := AddQuery (NewSearchQueryBuilder ColumnsEvent) in
    {| columns := columns builder; limit := limit builder; offset := offset builder;
       desc := desc builder; resourceOwner := resourceOwner builder;
       instanceID := instanceID builder; editorUser := editorUser builder;
       queries :=
         map (fun q => AggregateIDs [wm_AggregateID wm]
                         (AggregateTypes [OrgAggregateType] q))
             (queries builder);
       tx := tx builder;
       allowTimeTravel := allowTimeTravel builder;
       positionAfter := positionAfter builder;
       awaitOpenTransactions := awaitOpenTransactions builder;
       creationDateAfter := creationDateAfter builder;
       creationDateBefore := creationDateBefore builder;
       eventSequenceGreater := eventSequenceGreater builder |}
}.

#[export] Instance OrgWriteModel_existsWriteModel : existsWriteModel OrgWriteModel := {
  Exists wm := wm_Added wm
}.

(** A persisted event seen as the command it came from; it exposes its
    sequence. *)
Definition commandOf (event : Event) : Command :=
  mkCommand (Event_Aggregate event) (Event_Type event) (Some (Event_Sequence event)).

(** The filter collaborator of a store holding [persisted]. *)
Definition filterOver (persisted : list Event) : FilterToQueryReducer :=
  fun query =>
    (List.filter (fun event => matchCommand query (commandOf event)) persisted, None).

(** A store double: it answers every push with [mock_result] and keeps
    the pushes it received. *)
Record MockStore : Type := mkMockStore {
  mock_result : list Event * option error;
  mock_pushed : list (list Command)
}.

#[export] Instance MockStore_Pusher : Pusher MockStore := {
  Push es cmds :=
    (mkMockStore (mock_result es) (mock_pushed es ++ [cmds]), mock_result es)
}.

(** *** Events and stores to run the protocol on *)

Definition org1Added : Event :=
  mkEvent (mkAggregate "org-1" OrgAggregateType "ro-1" "instance-1")
    OrgAddedEventType 1 time.epoch "".

Definition org2Added : Event :=
  mkEvent (mkAggregate "org-2" OrgAggregateType "ro-1" "instance-1")
    OrgAddedEventType 2 time.epoch "".

Definition addOrg1 : Command :=
  mkCommand (mkAggregate "org-1" OrgAggregateType "ro-1" "instance-1")
    OrgAddedEventType None.

Definition conflict : error := Foreign "sequence of the aggregate has advanced".

Definition refusingStore : Commands MockStore :=
  mkCommands (mkMockStore ([], Some conflict) []).

Definition acceptingStore (events : list Event) : Commands MockStore :=
  mkCommands (mkMockStore (events, None) []).

(** An [AppendReducer] whose [Reduce] fails once it holds an event. *)
Record Fragile : Type := mkFragile {
  fragile_events : list Event
}.

Definition reduceFailed : error := Foreign "could not reduce".

#[export] Instance Fragile_AppendReducer : AppendReducer Fragile := {
  AppendEvents events object := mkFragile (fragile_events object ++ events);
  Reduce object :=
    match fragile_events object with
    | [] => (object, None)
    | _ => (object, Some reduceFailed)
    end
}.

End command.

(* ------------------------------------------------------------------ *)
(** ** Package view: the org-member projection *)

Module model.

(** Modelled from the spec: the domain type [model.OrgMemberView] is
    declared in another package; the conversions read and write
    these ten fields of it. *)
Record OrgMemberView : Type := mkOrgMemberView {
  UserID       : string;
  OrgID        : string;
  UserName     : string;
  Email        : string;
  FirstName    : string;
  LastName     : string;
  Roles        : list string;
  Sequence     : N;
  CreationDate : time.Time;
  ChangeDate   : time.Time
}.

End model.

Module models.

(** The event of [internal/eventstore/models], by the fields the
    projection reads. *)
Definition EventType := string.

Record Event : Type := mkEvent {
  Sequence     : N;                (* uint64 *)
  CreationDate : time.Time;
  Type_        : EventType;
  AggregateID  : string;
  Data         : list Byte.byte
}.

End models.

Module view.

Import errors.

Record OrgMemberView : Type := mkOrgMemberView {
  UserID       : string;        (* json:"userId" *)
  OrgID        : string;        (* json:"-" *)
  UserName     : string;        (* json:"-" *)
  Email        : string;        (* json:"-" *)
  FirstName    : string;        (* json:"-" *)
  LastName     : string;        (* json:"-" *)
  Roles        : list string;   (* json:"roles" *)
  Sequence     : N;             (* json:"-" *)
  CreationDate : time.Time;     (* json:"-" *)
  ChangeDate   : time.Time      (* json:"-" *)
}.

Definition OrgMemberViewFromModel (member : model.OrgMemberView) : OrgMemberView :=
  {| UserID       := model.UserID member;
     OrgID        := model.OrgID member;
     UserName     := model.UserName member;
     Email        := model.Email member;
     FirstName    := model.FirstName member;
     LastName     := model.LastName member;
     Roles        := model.Roles member;
     Sequence     := model.Sequence member;
     CreationDate := model.CreationDate member;
     ChangeDate   := model.ChangeDate member |}.

Definition OrgMemberToModel (member : OrgMemberView) : model.OrgMemberView :=
  {| model.UserID       := UserID member;
     model.OrgID        := OrgID member;
     model.UserName     := UserName member;
     model.Email        := Email member;
     model.FirstName    := FirstName member;
     model.LastName     := LastName member;
     model.Roles        := Roles member;
     model.Sequence     := Sequence member;
     model.CreationDate := CreationDate member;
     model.ChangeDate   := ChangeDate member |}.

Definition OrgMembersToModel (roles : list OrgMemberView) : list model.OrgMemberView :=
  map OrgMemberToModel roles.

(** The part of the record [encoding/json] can reach: the two fields
    whose tag is not ["-"]. *)
Definition JSONFields : Type := (string * list string)%type.

(** [json.Unmarshal(data, r)], restricted to these fields: the fields as
    it leaves them and its error. *)
Definition Unmarshaler : Type :=
  list Byte.byte -> JSONFields -> JSONFields * option error.

Section Projection.

(** The decoder of the standard library, and the two event types of
    [es_model], a package of its own. *)
Variable json_Unmarshal : Unmarshaler.
Variables OrgMemberAdded OrgMemberChanged : models.EventType.

Definition setRootData (r : OrgMemberView) (event : models.Event) : OrgMemberView :=
  {| UserID := UserID r; OrgID := models.AggregateID event;
     UserName := UserName r; Email := Email r; FirstName := FirstName r;
     LastName := LastName r; Roles := Roles r; Sequence := Sequence r;
     CreationDate := CreationDate r; ChangeDate := ChangeDate r |}.

(** The log entry written on failure is not part of the state. *)
Definition SetData (r : OrgMemberView) (event : models.Event)
  : OrgMemberView * option error :=
  let '((userID, roles), err) := json_Unmarshal (models.Data event) (UserID r, Roles r) in
  let r :=
    {| UserID := userID; OrgID := OrgID r;
       UserName := UserName r; Email := Email r; FirstName := FirstName r;
       LastName := LastName r; Roles := roles; Sequence := Sequence r;
       CreationDate := CreationDate r; ChangeDate := ChangeDate r |} in
  match err with
  | Some err =>
      (r, Some (ThrowInternal (Some err) "MODEL-lub6s" "Could not unmarshal data"))
  | None => (r, None)
  end.

Definition AppendEvent (r : OrgMemberView) (event : models.Event)
  : OrgMemberView * option error :=
  let r :=
    {| UserID := UserID r; OrgID := OrgID r;
       UserName := UserName r; Email := Email r; FirstName := FirstName r;
       LastName := LastName r; Roles := Roles r;
       Sequence := models.Sequence event;
       CreationDate := CreationDate r; ChangeDate := ChangeDate r |} in
  let r :=
    {| UserID := UserID r; OrgID := OrgID r;
       UserName := UserName r; Email := Email r; FirstName := FirstName r;
       LastName := LastName r; Roles := Roles r; Sequence := Sequence r;
       CreationDate := CreationDate r;
       ChangeDate := models.CreationDate event |} in
  if String.eqb (models.Type_ event) OrgMemberAdded then
    let r := setRootData r event in
    let r :=
      {| UserID := UserID r; OrgID := OrgID r;
         UserName := UserName r; Email := Email r; FirstName := FirstName r;
         LastName := LastName r; Roles := Roles r; Sequence := Sequence r;
         CreationDate := models.CreationDate event;
         ChangeDate := ChangeDate r |} in
    SetData r event
  else if String.eqb (models.Type_ event) OrgMemberChanged then
    SetData r event
  else (r, None).

End Projection.

(** The business fields of the record: all but the watermark [Sequence]
    and the two dates. *)
Definition businessFields (r : OrgMemberView)
  : string * string * string * string * string * string * list string :=
  (UserID r, OrgID r, UserName r, Email r, FirstName r, LastName r, Roles r).

(** A decoder double, for running the projection: it accepts the empty
    object [{}], which assigns no field, and refuses every other payload
    before a field is touched, as [encoding/json] refuses input that is
    not JSON. *)
Definition emptyObjectDecoder : Unmarshaler :=
  fun data fields =>
    match data with
    | [Byte.x7b; Byte.x7d] => (fields, None)
    | _ => (fields, Some (Foreign "invalid character looking for beginning of value"))
    end.

(** *** A record and events to run the projection on *)

Definition memberAdded   : models.EventType := "org.member.added".
Definition memberChanged : models.EventType := "org.member.changed".

Definition someMember : OrgMemberView :=
  {| UserID := "user-1"; OrgID := "org-0"; UserName := "gigi";
     Email := "gigi@example.com"; FirstName := "Gigi"; LastName := "Giraffe";
     Roles := ["ORG_OWNER"]; Sequence := 3;
     CreationDate := time.epoch; ChangeDate := time.epoch |}.

Definition later : time.Time := time.mkTime (time.unixToInternal + 60) 0.

(** Events of [org-1] with sequence 7 whose payload is not JSON. *)
Definition brokenEvent (type : models.EventType) : models.Event :=
  models.mkEvent 7 later type "org-1" (list_byte_of_string "not json").

(** A decoder double that assigns the given fields and succeeds. *)
Definition assigningDecoder (fields : JSONFields) : Unmarshaler :=
  fun _ _ => (fields, None).

Definition emptyObjectEvent (type : models.EventType) : models.Event :=
  models.mkEvent 8 later type "org-1" (list_byte_of_string "{}").

End view.

(* ------------------------------------------------------------------ *)
(** ** Theorems: eventstore *)

Section ColumnsValidate.

Import errors eventstore.
Local Open Scope Z_scope.

(** C9. [Columns.Validate] fails, with a precondition-failed error, exactly
    on the values outside of the enumeration [ColumnsEvent],
    [ColumnsMaxSequence], [ColumnsInstanceIDs], that is on [c <= 0] and
    on [c >= columnsCount]; on the three enumerated values it returns
    [nil]. *)
Theorem Validate_range (c : Columns) :
  ((exists e, Validate c = Some e /\ IsPreconditionFailed e = true)
     <-> (c <= 0 \/ c >= columnsCount))
  /\ ((c <= 0 \/ c >= columnsCount)
     <-> ~ In c [ColumnsEvent; ColumnsMaxSequence; ColumnsInstanceIDs])
  /\ (Validate c = None
     <-> In c [ColumnsEvent; ColumnsMaxSequence; ColumnsInstanceIDs]).
Proof.
  unfold Validate, columnsCount, ColumnsEvent, ColumnsMaxSequence,
    ColumnsInstanceIDs; simpl.
  destruct (Z.leb_spec c 0) as [Hle | Hgt];
    [ | destruct (Z.geb_spec c 4) as [Hge | Hlt] ]; simpl;
    (split; [ | split ]); split; intros H;
    try discriminate; try reflexivity; try lia; eauto.
  destruct H as (e & He & _); discriminate.
Qed.

End ColumnsValidate.

(* ------------------------------------------------------------------ *)
(** ** Theorems: the setters of the creation-date bounds *)

Section CreationDateBounds.

Import eventstore.

Lemma ignored_timestamp (t : time.Time) :
  time.IsZero t || (time.Unix t =? 0)%Z = true
  <-> time.IsZero t = true \/ time.Unix t = 0%Z.
Proof.
  rewrite orb_true_iff, Z.eqb_eq; reflexivity.
Qed.

Lemma kept_timestamp (t : time.Time) :
  time.IsZero t || (time.Unix t =? 0)%Z = false
  <-> time.IsZero t = false /\ time.Unix t <> 0%Z.
Proof.
  rewrite orb_false_iff, Z.eqb_neq; reflexivity.
Qed.

(** C8. [CreationDateAfter] and [CreationDateBefore], called with the zero
    value of [time.Time] or with a timestamp whose Unix time, in whole
    seconds, is 0, return
    the builder as it was: no bound is set, nothing fails.  Called with
    any other timestamp they set their own bound to it and leave every
    other field alone. *)
Theorem CreationDate_zero_guard (t : time.Time) (b : SearchQueryBuilder) :
  (time.IsZero t = true \/ time.Unix t = 0%Z ->
     CreationDateAfter t b = b /\ CreationDateBefore t b = b)
  /\ (time.IsZero t = false /\ time.Unix t <> 0%Z ->
     (GetCreationDateAfter (CreationDateAfter t b) = t
      /\ GetCreationDateBefore (CreationDateAfter t b) = GetCreationDateBefore b
      /\ fieldsButCreationDates (CreationDateAfter t b) = fieldsButCreationDates b)
     /\ (GetCreationDateBefore (CreationDateBefore t b) = t
      /\ GetCreationDateAfter (CreationDateBefore t b) = GetCreationDateAfter b
      /\ fieldsButCreationDates (CreationDateBefore t b) = fieldsButCreationDates b)).
Proof.
  unfold CreationDateAfter, CreationDateBefore; split; intros H.
  - apply ignored_timestamp in H; rewrite H; split; reflexivity.
  - apply kept_timestamp in H; rewrite H; repeat split; reflexivity.
Qed.

(** The theorem at the zero value, at the epoch, half a second into the
    epoch's second (whose Unix time is 0 as well) and at the second after
    the epoch. *)
Lemma CreationDate_zero_guard_witness :
  let b := NewSearchQueryBuilder ColumnsEvent in
  let half := time.mkTime time.unixToInternal 500000000 in
  let later := time.mkTime (time.unixToInternal + 1) 0 in
  (CreationDateAfter time.zero b = b /\ CreationDateBefore time.zero b = b)
  /\ (CreationDateAfter time.epoch b = b /\ CreationDateBefore time.epoch b = b)
  /\ (CreationDateAfter half b = b /\ CreationDateBefore half b = b)
  /\ GetCreationDateAfter (CreationDateAfter later b) = later
  /\ GetCreationDateBefore (CreationDateBefore later b) = later.
Proof.
  intros b half later; repeat apply conj.
  - apply (proj1 (CreationDate_zero_guard time.zero b)); left; reflexivity.
  - apply (proj1 (CreationDate_zero_guard time.zero b)); left; reflexivity.
  - apply (proj1 (CreationDate_zero_guard time.epoch b)); right; reflexivity.
  - apply (proj1 (CreationDate_zero_guard time.epoch b)); right; reflexivity.
  - apply (proj1 (CreationDate_zero_guard half b)); right; reflexivity.
  - apply (proj1 (CreationDate_zero_guard half b)); right; reflexivity.
  - apply (proj2 (CreationDate_zero_guard later b)); split;
      [ reflexivity | vm_compute; discriminate ].
  - apply (proj2 (CreationDate_zero_guard later b)); split;
      [ reflexivity | vm_compute; discriminate ].
Defined.

End CreationDateBounds.

(* ------------------------------------------------------------------ *)
(** ** Theorems: matching one command *)

Section MatchCommand.

Import eventstore.

Lemma contains_In (a : string) (l : list string) :
  existsb (fun x => String.eqb a x) l = true <-> In a l.
Proof.
  rewrite existsb_exists; split.
  - intros (x & Hin & Heq); apply String.eqb_eq in Heq; subst; assumption.
  - intros Hin; exists a; split; [ assumption | apply String.eqb_refl ].
Qed.

Lemma nonempty_length {A : Type} (l : list A) :
  (0 <? List.length l)%nat = false <-> l = [].
Proof.
  destruct l; simpl; split; intros H; try reflexivity; discriminate.
Qed.

(** One filter field of a sub query: the guard of its [if] is false
    exactly when the field is empty or contains the value. *)
Lemma field_guard (a : string) (l : list string) :
  (0 <? List.length l)%nat && negb (existsb (fun x => String.eqb a x) l) = false
  <-> l = [] \/ In a l.
Proof.
  rewrite andb_false_iff, negb_false_iff, nonempty_length, contains_In.
  reflexivity.
Qed.

Lemma matches_iff (query : SearchQuery) (command : Command) :
  matches query command = true <-> subQueryMatches query command.
Proof.
  unfold matches, subQueryMatches, isAggregateTypes, isAggregateIDs, isEventTypes.
  rewrite <- !field_guard.
  unfold AggregateType, EventType.
  repeat match goal with
         | |- context [if ?guard then _ else _] => destruct guard; cbv iota
         end;
    intuition congruence.
Qed.

Lemma resourceOwner_guard (builder : SearchQueryBuilder) (command : Command) :
  negb (String.eqb (resourceOwner builder) "")
  && negb (String.eqb (Aggregate_ResourceOwner (Command_Aggregate command))
                      (resourceOwner builder)) = false
  <-> resourceOwnerGate builder command.
Proof.
  unfold resourceOwnerGate.
  rewrite andb_false_iff, !negb_false_iff, !String.eqb_eq; reflexivity.
Qed.

Lemma instanceID_guard (builder : SearchQueryBuilder) (command : Command) :
  negb (String.eqb (Aggregate_InstanceID (Command_Aggregate command)) "")
  && match instanceID builder with
     | None => false
     | Some id =>
         negb (String.eqb id "")
         && negb (String.eqb (Aggregate_InstanceID (Command_Aggregate command)) id)
     end = false
  <-> instanceIDGate builder command.
Proof.
  unfold instanceIDGate.
  rewrite andb_false_iff, negb_false_iff, String.eqb_eq.
  destruct (instanceID builder) as [id | ].
  - rewrite andb_false_iff, !negb_false_iff, !String.eqb_eq.
    split.
    + intros [H | [H | H]]; subst; auto.
    + intros [H | [H | [H | H]]]; try discriminate; auto;
        injection H as H; subst; auto.
  - split; auto.
Qed.

Lemma sequence_guard (builder : SearchQueryBuilder) (command : Command) :
  match Command_Sequence command with
  | Some seq =>
      (0 <? eventSequenceGreater builder)%N
      && (seq <=? eventSequenceGreater builder)%N
  | None => false
  end = false
  <-> sequenceGate builder command.
Proof.
  unfold sequenceGate.
  destruct (Command_Sequence command) as [seq | ].
  - rewrite andb_false_iff, N.ltb_ge, N.leb_gt; split; intros [H | H]; lia.
  - split; auto.
Qed.

(** [matchCommand] in full: the three gates, then the sub queries. *)
Lemma matchCommand_iff (builder : SearchQueryBuilder) (command : Command) :
  matchCommand builder command = true
  <-> passesGates builder command
      /\ (queries builder = []
          \/ exists query, In query (queries builder) /\ subQueryMatches query command).
Proof.
  unfold matchCommand, passesGates.
  rewrite <- resourceOwner_guard, <- instanceID_guard, <- sequence_guard.
  do 3 (match goal with
        | |- context [if ?guard then false else _] =>
            destruct guard; cbv iota; [ intuition congruence | ]
        end).
  destruct (queries builder) as [ | q0 qs ] eqn:Hq; simpl List.length; cbv iota beta.
  - simpl; intuition.
  - change (S (List.length qs) =? 0)%nat with false; cbv iota.
    rewrite existsb_exists.
    split.
    + intros (q & Hin & Hm); repeat split; try reflexivity.
      right; exists q; split; [ assumption | apply matches_iff; assumption ].
    + intros (_ & [Hnil | (q & Hin & Hm)]); [ discriminate | ].
      exists q; split; [ assumption | apply matches_iff; assumption ].
Qed.

(** C3. For a command that passes the gates on resource owner, instance
    ID and sequence: a builder without sub queries matches it; a builder
    with sub queries matches it if and only if one of them does, and a sub
    query does when each of its non-empty fields [aggregateTypes],
    [aggregateIDs], [eventTypes] contains the command's value. *)
Theorem matchCommand_subqueries (builder : SearchQueryBuilder) (command : Command) :
  passesGates builder command ->
  (queries builder = [] -> matchCommand builder command = true)
  /\ (queries builder <> [] ->
      (matchCommand builder command = true
       <-> exists query, In query (queries builder) /\ matches query command = true))
  /\ (forall query,
      matches query command = true
      <-> (aggregateTypes query = []
           \/ In (Aggregate_Type (Command_Aggregate command)) (aggregateTypes query))
          /\ (aggregateIDs query = []
           \/ In (Aggregate_ID (Command_Aggregate command)) (aggregateIDs query))
          /\ (eventTypes query = []
           \/ In (Command_Type command) (eventTypes query))).
Proof.
  intros Hgates; repeat apply conj.
  - intros Hnil; apply matchCommand_iff; auto.
  - intros Hne; rewrite matchCommand_iff; split.
    + intros (_ & [Hnil | (q & Hin & Hm)]); [ contradiction | ].
      exists q; split; [ assumption | apply matches_iff; assumption ].
    + intros (q & Hin & Hm); split; [ assumption | ].
      right; exists q; split; [ assumption | apply matches_iff; assumption ].
  - intros query; apply matches_iff.
Qed.

(** The three commands of the spec's scenario against [twoSubQueries]:
    the one that matches the second sub query only is kept; the one that
    matches neither and the one that matches a part of the first are not. *)
Lemma matchCommand_subqueries_witness :
  passesGates twoSubQueries onlySecond
  /\ (matchCommand twoSubQueries onlySecond = true
      <-> exists query,
          In query (queries twoSubQueries) /\ matches query onlySecond = true)
  /\ matchCommand twoSubQueries onlySecond = true
  /\ matchCommand twoSubQueries neither = false
  /\ matchCommand twoSubQueries partlyFirst = false.
Proof.
  assert (Hgates : passesGates twoSubQueries onlySecond).
  { repeat split; left; reflexivity. }
  split; [ exact Hgates | ].
  split; [ | repeat split; reflexivity ].
  apply (proj1 (proj2 (matchCommand_subqueries twoSubQueries onlySecond Hgates))).
  discriminate.
Defined.

(** C4. With the builder's instance ID set to a non-empty value, a command
    without instance ID passes the instance gate, so that the builder
    matches it exactly when the same builder without instance ID does; a
    command with another, non-empty instance ID does not pass and is not
    matched. *)
Theorem instanceID_exemption (builder : SearchQueryBuilder) (command : Command)
    (id : string) :
  instanceID builder = Some id ->
  id <> "" ->
  (Aggregate_InstanceID (Command_Aggregate command) = "" ->
     instanceIDGate builder command
     /\ matchCommand builder command = matchCommand (setInstanceID None builder) command)
  /\ (Aggregate_InstanceID (Command_Aggregate command) <> "" ->
      Aggregate_InstanceID (Command_Aggregate command) <> id ->
      ~ instanceIDGate builder command
      /\ matchCommand builder command = false).
Proof.
  intros Hid Hne; split.
  - intros Hempty; split; [ left; assumption | ].
    unfold matchCommand, setInstanceID; simpl.
    rewrite Hempty; reflexivity.
  - intros Hcmd Hother.
    assert (Hgate : ~ instanceIDGate builder command).
    { unfold instanceIDGate; rewrite Hid.
      intros [H | [H | [H | H]]]; try discriminate; try contradiction;
        injection H as H; subst; contradiction. }
    split; [ exact Hgate | ].
    destruct (matchCommand builder command) eqn:Hm; [ | reflexivity ].
    apply matchCommand_iff in Hm; destruct Hm as ((_ & Hgate' & _) & _).
    contradiction.
Qed.

(** The spec's scenario: the builder of [InstanceID("tenant-x")] matches
    a command without instance ID and not one of [tenant-y]. *)
Lemma instanceID_exemption_witness :
  (instanceIDGate tenantX noTenant /\ matchCommand tenantX noTenant = true)
  /\ (~ instanceIDGate tenantX tenantY /\ matchCommand tenantX tenantY = false).
Proof.
  assert (Hid : instanceID tenantX = Some "tenant-x") by reflexivity.
  assert (Hne : "tenant-x" <> "") by discriminate.
  split.
  - destruct (proj1 (instanceID_exemption tenantX noTenant "tenant-x" Hid Hne)
                eq_refl) as [Hgate Hm].
    split; [ exact Hgate | rewrite Hm; reflexivity ].
  - apply (proj2 (instanceID_exemption tenantX tenantY "tenant-x" Hid Hne));
      discriminate.
Defined.

End MatchCommand.

(* ------------------------------------------------------------------ *)
(** ** Theorems: offset and limit of [Matches] *)

Section MatchesOffsetLimit.

Import eventstore.

Variable builder : SearchQueryBuilder.

Lemma take_limit_within {A : Type} (l : list A) :
  (limit builder = 0 \/ N.of_nat (List.length l) <= limit builder)%N ->
  take_limit (limit builder) l = l.
Proof.
  intros H; unfold take_limit.
  destruct (N.ltb_spec 0 (limit builder)) as [Hpos | Hzero]; [ | reflexivity ].
  apply firstn_all2; lia.
Qed.

Lemma take_limit_full {A : Type} (l rest : list A) :
  (0 < limit builder)%N ->
  N.of_nat (List.length l) = limit builder ->
  take_limit (limit builder) (l ++ rest) = l.
Proof.
  intros Hpos Hlen; unfold take_limit.
  apply N.ltb_lt in Hpos; rewrite Hpos.
  replace (N.to_nat (limit builder)) with (List.length l + 0)%nat by lia.
  rewrite firstn_app_2; simpl; apply app_nil_r.
Qed.

(** The loop, entered at index [i] with [matches] collected: what it
    still skips are the first [offset - i] commands, whatever they are. *)
Lemma Matches_loop_spec (commands : list Command) :
  forall (i : N) (matches : list Command),
    (i + N.of_nat (List.length commands) <= 2 ^ 16)%N ->
    (limit builder = 0 \/ N.of_nat (List.length matches) <= limit builder)%N ->
    Matches_loop builder i commands matches
    = take_limit (limit builder)
        (matches ++ filter (matchCommand builder)
                      (skipn (N.to_nat (offset builder) - N.to_nat i) commands)).
Proof.
  induction commands as [ | command rest IH ]; intros i matches Hidx Hlen.
  - simpl. rewrite skipn_nil; simpl; rewrite app_nil_r.
    symmetry; apply take_limit_within; assumption.
  - simpl Matches_loop. simpl List.length in Hidx.
    destruct (N.ltb_spec 0 (limit builder)) as [Hpos | Hzero];
      destruct (N.leb_spec (limit builder) (N.of_nat (List.length matches)))
        as [Hfull | Hroom]; cbn [andb];
      try (symmetry; apply take_limit_full; [ assumption | lia ]).
    all: assert (Hsmall : uint16 i = i)
      by (unfold uint16; apply N.mod_small; lia);
      rewrite Hsmall;
      destruct (N.ltb_spec 0 (offset builder)) as [Hoff | Hnooff];
      destruct (N.ltb_spec i (offset builder)) as [Hskip | Hkeep]; cbn [andb].
    all: try (rewrite IH by lia;
              replace (N.to_nat (offset builder) - N.to_nat i)%nat
                with (S (N.to_nat (offset builder) - N.to_nat (i + 1))) by lia;
              reflexivity).
    all: replace (N.to_nat (offset builder) - N.to_nat i)%nat with 0%nat by lia;
      cbn [skipn filter];
      destruct (matchCommand builder command);
      rewrite IH by (rewrite ?length_app; simpl; lia);
      replace (N.to_nat (offset builder) - N.to_nat (i + 1))%nat with 0%nat by lia;
      cbn [skipn]; rewrite <- ?app_assoc; reflexivity.
Qed.

(** C1, as the code has it.  On a slice of at most 65536 commands, so
    that every index is its own [uint16], [Matches] drops the first
    [offset] commands of its argument, matching or not, keeps of the rest
    those that satisfy [matchCommand], in order, and stops after [limit]
    of them when [limit > 0]. *)
Theorem Matches_offset_limit (commands : list Command) :
  (N.of_nat (List.length commands) <= 2 ^ 16)%N ->
  Matches builder commands
  = take_limit (limit builder)
      (filter (matchCommand builder)
         (skipn (N.to_nat (offset builder)) commands)).
Proof.
  intros Hlen; unfold Matches.
  rewrite Matches_loop_spec by (simpl; lia).
  rewrite Nat.sub_0_r; reflexivity.
Qed.

End MatchesOffsetLimit.

Section MatchesScenarios.

Import eventstore.

(** The spec's scenario, [offset = 1] and [limit = 2] over three matching
    commands, and the same builder over a slice that starts with a
    command it does not match. *)
Lemma Matches_offset_limit_witness :
  Matches (onlyT 1 2) [cmdA; cmdB; cmdC] = [cmdB; cmdC]
  /\ Matches (onlyT 1 2) [cmdU; cmdA; cmdB; cmdC] = [cmdA; cmdB].
Proof.
  split.
  - rewrite (Matches_offset_limit (onlyT 1 2) [cmdA; cmdB; cmdC]);
      [ reflexivity | simpl; lia ].
  - rewrite (Matches_offset_limit (onlyT 1 2) [cmdU; cmdA; cmdB; cmdC]);
      [ reflexivity | simpl; lia ].
Defined.

(** C1, as the spec words it, fails: with [offset = 1] and a first command
    that the builder does not match, the code skips that command and
    returns both matching ones, where skipping the first match would leave
    one. *)
Lemma Matches_offset_not_over_filtered :
  Matches (onlyT 1 0) [cmdU; cmdB; cmdC] = [cmdB; cmdC]
  /\ Matches_spec (onlyT 1 0) [cmdU; cmdB; cmdC] = [cmdC]
  /\ Matches (onlyT 1 0) [cmdU; cmdB; cmdC]
     <> Matches_spec (onlyT 1 0) [cmdU; cmdB; cmdC].
Proof.
  repeat split; try reflexivity.
  vm_compute; discriminate.
Qed.

End MatchesScenarios.

(* ------------------------------------------------------------------ *)
(** ** Theorems: the append-and-reduce protocol *)

Section AppendReduceProtocol.

Import errors eventstore command.

Lemma no_events_length (events : list Event) :
  (List.length events =? 0)%nat = true <-> events = [].
Proof.
  destruct events; simpl; split; intros H; try reflexivity; discriminate.
Qed.

(** A filter that fails makes [queryAndReduce] return that error, the
    model as it was. *)
Lemma queryAndReduce_filter_error {W : Type} `{QueryReducer W}
    (filter : FilterToQueryReducer) (wm : W) (events : list Event) (err : error) :
  filter (Query wm) = (events, Some err) ->
  queryAndReduce filter wm = (wm, Some err).
Proof.
  intros Hf; unfold queryAndReduce; rewrite Hf; reflexivity.
Qed.

(** With events, [queryAndReduce] appends them and reduces. *)
Lemma queryAndReduce_events {W : Type} `{QueryReducer W}
    (filter : FilterToQueryReducer) (wm : W) (events : list Event) :
  filter (Query wm) = (events, None) ->
  events <> [] ->
  queryAndReduce filter wm = Reduce (AppendEvents events wm).
Proof.
  intros Hf Hne; unfold queryAndReduce; rewrite Hf.
  destruct (List.length events =? 0)%nat eqn:Hlen; [ | reflexivity ].
  apply no_events_length in Hlen; contradiction.
Qed.

(** Without events, and without error, [queryAndReduce] returns at once. *)
Lemma queryAndReduce_nothing {W : Type} `{QueryReducer W}
    (filter : FilterToQueryReducer) (wm : W) :
  filter (Query wm) = ([], None) ->
  queryAndReduce filter wm = (wm, None).
Proof.
  intros Hf; unfold queryAndReduce; rewrite Hf; reflexivity.
Qed.

(** C6. When the filter returns no events and no error, [queryAndReduce]
    returns [nil] and the model it was given: run on a model that records
    its calls, neither [AppendEvents] nor [Reduce] shows up.  The result
    differs from that of a failing filter, which is an error. *)
Theorem queryAndReduce_no_events {W : Type} `{QueryReducer W}
    (filter : FilterToQueryReducer) (wm : W) :
  filter (Query wm) = ([], None) ->
  queryAndReduce filter wm = (wm, None)
  /\ queryAndReduce filter (trace wm) = (trace wm, None)
  /\ traced_calls (fst (queryAndReduce filter (trace wm))) = [].
Proof.
  intros Hf.
  assert (Ht : queryAndReduce filter (trace wm) = (trace wm, None))
    by (apply queryAndReduce_nothing; exact Hf).
  repeat split;
    [ apply queryAndReduce_nothing; exact Hf | exact Ht | rewrite Ht; reflexivity ].
Qed.

(** A fresh write model of [org-1] over an empty store. *)
Lemma queryAndReduce_no_events_witness :
  queryAndReduce (filterOver []) (NewOrgWriteModel "org-1")
  = (NewOrgWriteModel "org-1", None)
  /\ queryAndReduce (filterOver [org2Added]) (NewOrgWriteModel "org-1")
  = (NewOrgWriteModel "org-1", None).
Proof.
  split.
  - apply (queryAndReduce_no_events (filterOver []) (NewOrgWriteModel "org-1")).
    reflexivity.
  - apply (queryAndReduce_no_events (filterOver [org2Added]) (NewOrgWriteModel "org-1")).
    reflexivity.
Defined.

(** C7. When [Push] returns an error, [pushAppendAndReduce] returns that
    very error and the object as it was: on an object that records its
    calls, neither [AppendEvents] nor [Reduce] shows up.  The store is
    left as the one push left it: nothing is pushed again. *)
Theorem pushAppendAndReduce_push_error {ES O : Type} `{Pusher ES} `{AppendReducer O}
    (c : Commands ES) (object : O) (cmds : list Command)
    (es : ES) (events : list Event) (err : error) :
  Push (Commands_eventstore c) cmds = (es, (events, Some err)) ->
  pushAppendAndReduce c object cmds = (mkCommands es, object, Some err)
  /\ pushAppendAndReduce c (trace object) cmds = (mkCommands es, trace object, Some err)
  /\ traced_calls (snd (fst (pushAppendAndReduce c (trace object) cmds))) = [].
Proof.
  intros Hpush; unfold pushAppendAndReduce; rewrite Hpush; simpl.
  repeat split.
Qed.

(** A store that refuses the push with a conflict: the error comes back
    as it is, the write model is untouched, and the store has seen one
    push. *)
Lemma pushAppendAndReduce_push_error_witness :
  pushAppendAndReduce refusingStore (NewOrgWriteModel "org-1") [addOrg1]
  = (mkCommands (mkMockStore ([], Some conflict) [[addOrg1]]),
     NewOrgWriteModel "org-1", Some conflict).
Proof.
  apply (pushAppendAndReduce_push_error refusingStore (NewOrgWriteModel "org-1")
           [addOrg1] (mkMockStore ([], Some conflict) [[addOrg1]]) [] conflict).
  reflexivity.
Defined.

(** C5. [exists] runs [queryAndReduce] and, when that returns no error,
    returns what [Exists()] says of the model after the replay.  So for a
    model whose [Exists()] is false and a filter that returns no events
    it returns false; and when the filter returns events, and reducing
    them succeeds and leaves a model whose [Exists()] is true, it returns
    true.  An error of the replay comes back with false. *)
Theorem exists_after_replay {W : Type} `{existsWriteModel W}
    (filter : FilterToQueryReducer) (wm : W) :
  (forall wm', queryAndReduce filter wm = (wm', None) ->
     exists_ filter wm = (wm', (Exists wm', None)))
  /\ (forall wm' err, queryAndReduce filter wm = (wm', Some err) ->
     exists_ filter wm = (wm', (false, Some err)))
  /\ (filter (Query wm) = ([], None) -> Exists wm = false ->
     exists_ filter wm = (wm, (false, None)))
  /\ (forall events wm',
     filter (Query wm) = (events, None) -> events <> [] ->
     Reduce (AppendEvents events wm) = (wm', None) -> Exists wm' = true ->
     exists_ filter wm = (wm', (true, None))).
Proof.
  assert (Hok : forall wm', queryAndReduce filter wm = (wm', None) ->
                  exists_ filter wm = (wm', (Exists wm', None))).
  { intros wm' Hq; unfold exists_; rewrite Hq; reflexivity. }
  repeat apply conj.
  - exact Hok.
  - intros wm' err Hq; unfold exists_; rewrite Hq; reflexivity.
  - intros Hf Hfresh.
    rewrite (Hok wm), Hfresh; [ reflexivity | ].
    apply queryAndReduce_nothing; exact Hf.
  - intros events wm' Hf Hne Hred Hex.
    rewrite (Hok wm'), Hex; [ reflexivity | ].
    rewrite (queryAndReduce_events filter wm events Hf Hne); exact Hred.
Qed.

(** The spec's scenario: with nothing persisted for [org-1], [exists]
    answers false; with the "added" event of [org-1] persisted, among
    those of another org, the model folds it and [exists] answers true. *)
Lemma exists_after_replay_witness :
  exists_ (filterOver [org2Added]) (NewOrgWriteModel "org-1")
  = (NewOrgWriteModel "org-1", (false, None))
  /\ exists_ (filterOver [org2Added; org1Added]) (NewOrgWriteModel "org-1")
  = (mkOrgWriteModel "org-1" [] 1 true, (true, None)).
Proof.
  split.
  - apply (proj1 (proj2 (proj2
      (exists_after_replay (filterOver [org2Added]) (NewOrgWriteModel "org-1")))));
      reflexivity.
  - apply (proj2 (proj2 (proj2
      (exists_after_replay (filterOver [org2Added; org1Added])
         (NewOrgWriteModel "org-1")))) [org1Added]);
      try reflexivity; discriminate.
Defined.

End AppendReduceProtocol.

(* ------------------------------------------------------------------ *)
(** ** Theorems: the org-member projection *)

Section OrgMemberProjection.

Import errors view.

(** C10. Converting a view record to the domain model and back gives the
    record again, all ten fields of it, and so does converting a domain
    value to the view record and back. *)
Theorem OrgMemberView_roundtrip :
  (forall v : OrgMemberView, OrgMemberViewFromModel (OrgMemberToModel v) = v)
  /\ (forall m : model.OrgMemberView, OrgMemberToModel (OrgMemberViewFromModel m) = m).
Proof.
  split; intros [ ]; reflexivity.
Qed.

(** What [SetData] does when the decoder fails. *)
Lemma SetData_failure (dec : Unmarshaler) (r : OrgMemberView) (event : models.Event)
    (fields : JSONFields) (cause : error) :
  dec (models.Data event) (UserID r, Roles r) = (fields, Some cause) ->
  SetData dec r event
  = ({| UserID := fst fields; OrgID := OrgID r; UserName := UserName r;
        Email := Email r; FirstName := FirstName r; LastName := LastName r;
        Roles := snd fields; Sequence := Sequence r;
        CreationDate := CreationDate r; ChangeDate := ChangeDate r |},
     Some (ThrowInternal (Some cause) "MODEL-lub6s" "Could not unmarshal data")).
Proof.
  intros Hdec; unfold SetData; rewrite Hdec; destruct fields; reflexivity.
Qed.

(** C2, as the code has it.  For an event of one of the two types the
    projection decodes, whose payload the decoder refuses: [AppendEvent]
    returns an internal error that wraps the decoder's; the record's
    sequence and change date are the event's; [UserName], [Email],
    [FirstName] and [LastName] are as before and [UserID] and [Roles] as
    the decoder left them.  For a "changed" event [OrgID] and the
    creation date are as before too, so that a decoder that left its
    target alone leaves all the business fields as they were; for an
    "added" event [OrgID] is the event's aggregate ID and the creation
    date the event's: they are assigned before the payload is decoded. *)
Theorem AppendEvent_decode_failure (dec : Unmarshaler)
    (added changed : models.EventType)
    (r : OrgMemberView) (event : models.Event)
    (fields : JSONFields) (cause : error) :
  models.Type_ event = added \/ models.Type_ event = changed ->
  dec (models.Data event) (UserID r, Roles r) = (fields, Some cause) ->
  let r' := fst (AppendEvent dec added changed r event) in
  let err := snd (AppendEvent dec added changed r event) in
  (err = Some (ThrowInternal (Some cause) "MODEL-lub6s" "Could not unmarshal data")
   /\ (exists e, err = Some e /\ IsInternal e = true /\ Unwrap e = Some cause))
  /\ Sequence r' = models.Sequence event
  /\ ChangeDate r' = models.CreationDate event
  /\ (UserName r', Email r', FirstName r', LastName r')
     = (UserName r, Email r, FirstName r, LastName r)
  /\ (UserID r', Roles r') = fields
  /\ (models.Type_ event <> added ->
      (OrgID r' = OrgID r /\ CreationDate r' = CreationDate r)
      /\ (fields = (UserID r, Roles r) -> businessFields r' = businessFields r))
  /\ (models.Type_ event = added ->
      OrgID r' = models.AggregateID event
      /\ CreationDate r' = models.CreationDate event).
Proof.
  intros Htype Hdec r' err; subst r' err.
  unfold AppendEvent.
  destruct (String.eqb_spec (models.Type_ event) added) as [Hadded | Hother].
  - rewrite (SetData_failure dec _ event fields cause) by exact Hdec.
    cbn [fst snd]; destruct fields as [userID roles]; cbn.
    repeat split; eauto; contradiction.
  - destruct (String.eqb_spec (models.Type_ event) changed) as [Hchanged | Hnone];
      [ | destruct Htype; contradiction ].
    rewrite (SetData_failure dec _ event fields cause) by exact Hdec.
    cbn [fst snd]; destruct fields as [userID roles]; cbn.
    repeat split; eauto; try contradiction.
    intros Heq; injection Heq as -> ->; reflexivity.
Qed.

(** A "changed" event with a payload that is not JSON: the watermark
    moves, the error is internal, the business fields stay. *)
Lemma AppendEvent_decode_failure_witness :
  let r' := fst (AppendEvent emptyObjectDecoder memberAdded memberChanged
                   someMember (brokenEvent memberChanged)) in
  Sequence r' = 7%N
  /\ ChangeDate r' = later
  /\ businessFields r' = businessFields someMember.
Proof.
  destruct (AppendEvent_decode_failure emptyObjectDecoder memberAdded memberChanged
              someMember (brokenEvent memberChanged)
              (UserID someMember, Roles someMember)
              (Foreign "invalid character looking for beginning of value")
              (or_intror eq_refl) eq_refl)
    as (_ & Hseq & Hdate & _ & _ & Hchanged & _).
  split; [ exact Hseq | split; [ exact Hdate | ] ].
  apply Hchanged; [ discriminate | reflexivity ].
Defined.

(** C2, as the spec words it, fails on an "added" event: the payload is
    refused, the error is internal, and yet the business field [OrgID]
    has moved from [org-0] to the event's [org-1]. *)
Lemma AppendEvent_added_rebinds_org :
  let r' := fst (AppendEvent emptyObjectDecoder memberAdded memberChanged
                   someMember (brokenEvent memberAdded)) in
  let err := snd (AppendEvent emptyObjectDecoder memberAdded memberChanged
                    someMember (brokenEvent memberAdded)) in
  (exists e, err = Some e /\ IsInternal e = true)
  /\ OrgID someMember = "org-0"
  /\ OrgID r' = "org-1"
  /\ businessFields r' <> businessFields someMember.
Proof.
  repeat split.
  - eexists; split; reflexivity.
  - vm_compute; discriminate.
Qed.

End OrgMemberProjection.

(* ------------------------------------------------------------------ *)
(** ** Further properties of [Matches], for slices of any length *)

Section MatchesInGeneral.

Import eventstore.

(** The loop is its limit applied to what it would collect unbounded. *)
Lemma Matches_loop_collect (builder : SearchQueryBuilder) (commands : list Command) :
  forall (i : N) (matches : list Command),
    (limit builder = 0 \/ N.of_nat (List.length matches) <= limit builder)%N ->
    Matches_loop builder i commands matches
    = take_limit (limit builder) (matches ++ collectFrom builder i commands).
Proof.
  induction commands as [ | command rest IH ]; intros i matches Hlen.
  - simpl; rewrite app_nil_r; symmetry; apply take_limit_within; assumption.
  - simpl Matches_loop; simpl collectFrom; unfold skips.
    destruct (N.ltb_spec 0 (limit builder)) as [Hpos | Hzero];
      destruct (N.leb_spec (limit builder) (N.of_nat (List.length matches)))
        as [Hfull | Hroom]; cbn [andb];
      try (symmetry; apply take_limit_full; [ assumption | lia ]).
    all: destruct ((0 <? offset builder)%N && (uint16 i <? offset builder)%N);
      cbn [negb andb]; [ apply IH; assumption | ].
    all: destruct (matchCommand builder command);
      [ rewrite IH by (rewrite length_app; simpl; lia);
        rewrite <- app_assoc; reflexivity
      | apply IH; assumption ].
Qed.

Lemma collectFrom_Limit (builder : SearchQueryBuilder) (n : N) (commands : list Command) :
  forall i, collectFrom (Limit n builder) i commands = collectFrom builder i commands.
Proof.
  induction commands as [ | command rest IH ]; intros i; simpl; [ reflexivity | ].
  rewrite IH; reflexivity.
Qed.

Lemma collectFrom_no_offset (builder : SearchQueryBuilder) (commands : list Command) :
  offset builder = 0%N ->
  forall i, collectFrom builder i commands = filter (matchCommand builder) commands.
Proof.
  intros Hoff; induction commands as [ | command rest IH ]; intros i; simpl;
    [ reflexivity | ].
  unfold skips; rewrite Hoff; simpl; rewrite IH; reflexivity.
Qed.

Lemma Subsequence_nil_l {A : Type} (l : list A) : Subsequence [] l.
Proof.
  induction l; constructor; assumption.
Qed.

Lemma Subsequence_refl {A : Type} (l : list A) : Subsequence l l.
Proof.
  induction l; constructor; assumption.
Qed.

Lemma Subsequence_In {A : Type} (l1 l2 : list A) :
  Subsequence l1 l2 -> incl l1 l2.
Proof.
  induction 1 as [ | x l1 l2 _ IH | x l1 l2 _ IH ]; intros a Ha.
  - exact Ha.
  - right; apply IH; exact Ha.
  - destruct Ha as [Ha | Ha]; [ left; exact Ha | right; apply IH; exact Ha ].
Qed.

Lemma collectFrom_firstn_Subsequence (builder : SearchQueryBuilder) (commands : list Command) :
  forall (i : N) (n : nat),
    Subsequence (firstn n (collectFrom builder i commands))
                (filter (matchCommand builder) commands).
Proof.
  induction commands as [ | command rest IH ]; intros i n; simpl.
  - rewrite firstn_nil; constructor.
  - destruct (skips builder i); destruct (matchCommand builder command) eqn:Hm;
      cbn [negb andb]; try apply IH.
    + apply Subsequence_skip, IH.
    + destruct n as [ | n ]; simpl;
        [ apply Subsequence_nil_l | apply Subsequence_keep, IH ].
Qed.

Lemma collectFrom_Subsequence (builder : SearchQueryBuilder)
    (commands : list Command) (i : N) :
  Subsequence (collectFrom builder i commands)
              (filter (matchCommand builder) commands).
Proof.
  rewrite <- (firstn_all (collectFrom builder i commands)).
  apply collectFrom_firstn_Subsequence.
Qed.

Lemma Matches_collect (builder : SearchQueryBuilder) (commands : list Command) :
  Matches builder commands
  = take_limit (limit builder) (collectFrom builder 0 commands).
Proof.
  unfold Matches; rewrite Matches_loop_collect by (simpl; lia); reflexivity.
Qed.

Lemma Matches_Subsequence (builder : SearchQueryBuilder) (commands : list Command) :
  Subsequence (Matches builder commands) (filter (matchCommand builder) commands).
Proof.
  rewrite Matches_collect; unfold take_limit.
  destruct (0 <? limit builder)%N;
    [ apply collectFrom_firstn_Subsequence | apply collectFrom_Subsequence ].
Qed.

Lemma Matches_length (builder : SearchQueryBuilder) (commands : list Command) :
  (0 < limit builder)%N ->
  (N.of_nat (List.length (Matches builder commands)) <= limit builder)%N.
Proof.
  intros Hpos; rewrite Matches_collect; unfold take_limit.
  apply N.ltb_lt in Hpos; rewrite Hpos.
  pose proof (firstn_le_length (N.to_nat (limit builder))
                (collectFrom builder 0 commands)); lia.
Qed.

(** X1. The limit only cuts the result short: what [Matches] returns
    under a limit is the result of the same builder without limit, up to
    its first [limit] commands. *)
Theorem Matches_limit_prefix (builder : SearchQueryBuilder) (commands : list Command) :
  Matches builder commands
  = take_limit (limit builder) (Matches (Limit 0 builder) commands).
Proof.
  rewrite (Matches_collect builder), (Matches_collect (Limit 0 builder)).
  rewrite collectFrom_Limit; reflexivity.
Qed.

(** X2. [Matches] never returns a command that is not in its argument or
    that [matchCommand] refuses, and never reorders: its result is a
    subsequence of the matching commands of the argument. *)
Theorem Matches_sound (builder : SearchQueryBuilder) (commands : list Command) :
  Subsequence (Matches builder commands) (filter (matchCommand builder) commands)
  /\ incl (Matches builder commands) commands
  /\ Forall (fun command => matchCommand builder command = true)
       (Matches builder commands).
Proof.
  pose proof (Matches_Subsequence builder commands) as Hsub.
  split; [ exact Hsub | ].
  apply Subsequence_In in Hsub.
  split.
  - intros c Hc; apply Hsub, filter_In in Hc; tauto.
  - apply Forall_forall; intros c Hc; apply Hsub, filter_In in Hc; tauto.
Qed.

(** X3. With a limit set, [Matches] returns at most [limit] commands. *)
Theorem Matches_limit_bound (builder : SearchQueryBuilder) (commands : list Command) :
  (0 < limit builder)%N ->
  (N.of_nat (List.length (Matches builder commands)) <= limit builder)%N.
Proof.
  intros Hpos; pose proof (Matches_length builder commands Hpos) as Hlen.
  exact Hlen.
Qed.

(** X4. Without offset no index is looked at: on a slice of any length
    [Matches] returns the commands [matchCommand] accepts, in order, up to
    the limit. *)
Theorem Matches_no_offset (builder : SearchQueryBuilder) (commands : list Command) :
  offset builder = 0%N ->
  Matches builder commands
  = take_limit (limit builder) (filter (matchCommand builder) commands).
Proof.
  intros Hoff; rewrite Matches_collect, collectFrom_no_offset by exact Hoff.
  reflexivity.
Qed.

(** X5. Without offset, matching the result again changes nothing. *)
Theorem Matches_idempotent (builder : SearchQueryBuilder) (commands : list Command) :
  offset builder = 0%N ->
  Matches builder (Matches builder commands) = Matches builder commands.
Proof.
  intros Hoff.
  rewrite (Matches_collect builder (Matches builder commands)).
  rewrite collectFrom_no_offset by exact Hoff.
  assert (Hall : filter (matchCommand builder) (Matches builder commands)
                 = Matches builder commands).
  { apply forallb_filter_id, forallb_forall.
    intros c Hc.
    pose proof (Subsequence_In _ _ (Matches_Subsequence builder commands)) as Hin.
    apply Hin, filter_In in Hc; tauto. }
  rewrite Hall.
  apply take_limit_within.
  destruct (N.ltb_spec 0 (limit builder)) as [Hpos | Hzero]; [ right | left; lia ].
  apply Matches_length; exact Hpos.
Qed.

End MatchesInGeneral.

Section MatchesInGeneralScenarios.

Import eventstore.

Lemma Matches_limit_bound_witness :
  (N.of_nat (List.length (Matches (onlyT 0 2) [cmdA; cmdU; cmdB; cmdC])) <= 2)%N.
Proof.
  apply (Matches_limit_bound (onlyT 0 2) [cmdA; cmdU; cmdB; cmdC]).
  reflexivity.
Defined.

Lemma Matches_no_offset_witness :
  Matches (onlyT 0 2) [cmdU; cmdA; cmdB; cmdC] = [cmdA; cmdB].
Proof.
  rewrite (Matches_no_offset (onlyT 0 2) [cmdU; cmdA; cmdB; cmdC]); reflexivity.
Defined.

Lemma Matches_idempotent_witness :
  Matches (onlyT 0 2) (Matches (onlyT 0 2) [cmdU; cmdA; cmdB; cmdC])
  = Matches (onlyT 0 2) [cmdU; cmdA; cmdB; cmdC].
Proof.
  apply (Matches_idempotent (onlyT 0 2) [cmdU; cmdA; cmdB; cmdC]).
  reflexivity.
Defined.

End MatchesInGeneralScenarios.

(* ------------------------------------------------------------------ *)
(** ** Further properties of [matchCommand] and of the builder *)

Section Gates.

Import eventstore.

(** X6. A resource owner restricts the matches to the commands of that
    owner, and does nothing else. *)
Theorem ResourceOwner_restricts (owner : string) (builder : SearchQueryBuilder)
    (command : Command) :
  owner <> "" ->
  matchCommand (ResourceOwner owner builder) command
  = String.eqb (Aggregate_ResourceOwner (Command_Aggregate command)) owner
    && matchCommand (ResourceOwner "" builder) command.
Proof.
  intros Hne; unfold matchCommand; simpl.
  apply String.eqb_neq in Hne; rewrite Hne; simpl.
  destruct (String.eqb (Aggregate_ResourceOwner (Command_Aggregate command)) owner);
    reflexivity.
Qed.

Lemma ResourceOwner_restricts_witness :
  matchCommand (ResourceOwner "ro-1" twoSubQueries) onlySecond = true
  /\ matchCommand (ResourceOwner "ro-2" twoSubQueries) onlySecond = false.
Proof.
  split.
  - rewrite (ResourceOwner_restricts "ro-1" twoSubQueries onlySecond);
      [ reflexivity | discriminate ].
  - rewrite (ResourceOwner_restricts "ro-2" twoSubQueries onlySecond);
      [ reflexivity | discriminate ].
Defined.

(** X7. A sequence bound [n > 0] keeps, of the commands that expose a
    sequence, those whose sequence is strictly greater than [n]; it lets
    every command without sequence through, and does nothing else. *)
Theorem SequenceGreater_restricts (n : N) (builder : SearchQueryBuilder)
    (command : Command) :
  (0 < n)%N ->
  matchCommand (SequenceGreater n builder) command
  = match Command_Sequence command with
    | Some seq => (n <? seq)%N
    | None => true
    end
    && matchCommand (SequenceGreater 0 builder) command.
Proof.
  intros Hpos; unfold matchCommand; simpl.
  apply N.ltb_lt in Hpos; rewrite Hpos.
  repeat match goal with
         | |- context [if ?guard then false else _] =>
             destruct guard;
             [ cbv iota; rewrite ?andb_false_r; reflexivity | cbv iota ]
         end.
  destruct (Command_Sequence command) as [seq | ]; [ | reflexivity ].
  cbn [andb]; rewrite N.ltb_antisym.
  destruct (seq <=? n)%N; reflexivity.
Qed.

Lemma SequenceGreater_restricts_witness :
  matchCommand (SequenceGreater 2 (onlyT 0 0)) cmdB = false
  /\ matchCommand (SequenceGreater 2 (onlyT 0 0)) cmdC = true
  /\ matchCommand (SequenceGreater 2 twoSubQueries) onlySecond = true.
Proof.
  repeat apply conj.
  - rewrite (SequenceGreater_restricts 2 (onlyT 0 0) cmdB); reflexivity.
  - rewrite (SequenceGreater_restricts 2 (onlyT 0 0) cmdC); reflexivity.
  - rewrite (SequenceGreater_restricts 2 twoSubQueries onlySecond); reflexivity.
Defined.

(** X8. [matchCommand] reads the resource owner, the instance ID, the
    sequence bound and, of each sub query, the aggregate types, aggregate
    IDs and event types: two builders that agree on these match the same
    commands, whatever their editor user, creation-date bounds, position,
    order, transaction, columns and event-data filters are. *)
Theorem matchCommand_reads (b1 b2 : SearchQueryBuilder) (command : Command) :
  resourceOwner b1 = resourceOwner b2 ->
  instanceID b1 = instanceID b2 ->
  eventSequenceGreater b1 = eventSequenceGreater b2 ->
  map filterFields (queries b1) = map filterFields (queries b2) ->
  matchCommand b1 command = matchCommand b2 command.
Proof.
  intros Hro Hid Hseq Hqs; unfold matchCommand.
  rewrite Hro, Hid, Hseq.
  assert (Hlen : List.length (queries b1) = List.length (queries b2)).
  { rewrite <- (length_map filterFields (queries b1)), Hqs; apply length_map. }
  rewrite Hlen.
  assert (Hex : existsb (fun query => matches query command) (queries b1)
                = existsb (fun query => matches query command) (queries b2)).
  { clear Hlen Hro Hid Hseq; revert Hqs.
    generalize (queries b2); induction (queries b1) as [ | q1 qs1 IH ];
      intros [ | q2 qs2 ] Hqs; try discriminate; [ reflexivity | ].
    simpl in Hqs; injection Hqs as Ht Hi He Hrest.
    simpl; rewrite (IH qs2 Hrest); f_equal.
    unfold matches; rewrite Ht, Hi, He; reflexivity. }
  rewrite Hex; reflexivity.
Qed.

(** An editor user, a creation-date bound and an event-data filter do
    not change what is matched. *)
Lemma matchCommand_reads_witness :
  let restricted :=
    EditorUser "user-1"
      (CreationDateAfter (time.mkTime (time.unixToInternal + 1) 0)
         (through 1 (EventData [("name", "gigi")]) twoSubQueries)) in
  matchCommand restricted onlySecond = matchCommand twoSubQueries onlySecond.
Proof.
  intros restricted.
  apply (matchCommand_reads restricted twoSubQueries onlySecond); reflexivity.
Defined.

(** X9. A sub query that [AddQuery] has appended and no setter has
    filled matches every command: from then on the builder matches
    whatever passes its gates, whatever its other sub queries say. *)
Theorem AddQuery_matches_all (builder : SearchQueryBuilder) (command : Command) :
  matchCommand (AddQuery builder) command = true <-> passesGates builder command.
Proof.
  rewrite matchCommand_iff.
  change (passesGates (AddQuery builder) command) with (passesGates builder command).
  split; [ tauto | ].
  intros Hgates; split; [ exact Hgates | ].
  right; exists (mkSearchQuery [] [] [] []); split.
  - simpl; apply in_or_app; right; left; reflexivity.
  - repeat split; left; reflexivity.
Qed.

End Gates.

(* ------------------------------------------------------------------ *)
(** ** Sub queries, built through their pointers *)

Section SubQueries.

Import eventstore.

Lemma assign_last (set : SearchQuery -> SearchQuery) (q : SearchQuery)
    (l : list SearchQuery) :
  assign (List.length l) set (l ++ [q])%list = (l ++ [set q])%list.
Proof.
  induction l as [ | q0 l IH ]; simpl; [ reflexivity | rewrite IH; reflexivity ].
Qed.

Lemma assign_app_l (set : SearchQuery -> SearchQuery) (l l' : list SearchQuery) :
  forall query : QueryRef,
    (query < List.length l)%nat ->
    assign query set (l ++ l')%list = (assign query set l ++ l')%list.
Proof.
  induction l as [ | q0 l IH ]; intros query Hlt; simpl in Hlt; [ lia | ].
  destruct query as [ | query ]; simpl; [ reflexivity | ].
  rewrite IH by lia; reflexivity.
Qed.

Lemma queries_addSubQuery (types : list AggregateType) (ids : list string)
    (events : list EventType) (builder : SearchQueryBuilder) :
  queries (addSubQuery types ids events builder)
  = (queries builder ++ [mkSearchQuery types ids events []])%list.
Proof.
  unfold addSubQuery, AddQueryAt, through; simpl.
  rewrite !assign_last; reflexivity.
Qed.

Lemma matchCommand_addSubQuery (types : list AggregateType) (ids : list string)
    (events : list EventType) (builder : SearchQueryBuilder) (command : Command) :
  matchCommand (addSubQuery types ids events builder) command = true
  <-> passesGates builder command
      /\ ((exists query, In query (queries builder) /\ subQueryMatches query command)
          \/ subQueryMatches (mkSearchQuery types ids events []) command).
Proof.
  rewrite matchCommand_iff, queries_addSubQuery.
  change (passesGates (addSubQuery types ids events builder) command)
    with (passesGates builder command).
  split; intros (Hgates & Hq); (split; [ exact Hgates | ]).
  - destruct Hq as [Hnil | (q & Hin & Hm)].
    + destruct (queries builder); discriminate.
    + apply in_app_or in Hin; destruct Hin as [Hin | [<- | [ ]]]; eauto.
  - right; destruct Hq as [(q & Hin & Hm) | Hm].
    + exists q; split; [ apply in_or_app; left; exact Hin | exact Hm ].
    + eexists; split; [ apply in_or_app; right; left; reflexivity | exact Hm ].
Qed.

(** X10. The chain [AddQuery().AggregateTypes(..).AggregateIDs(..)
    .EventTypes(..)] adds one alternative: the builder then matches a
    command that passes its gates when one of the sub queries it had
    matches it, or the new one does. *)
Theorem addSubQuery_matches (types : list AggregateType) (ids : list string)
    (events : list EventType) (builder : SearchQueryBuilder) (command : Command) :
  matchCommand (addSubQuery types ids events builder) command = true
  <-> passesGates builder command
      /\ ((exists query, In query (queries builder) /\ subQueryMatches query command)
          \/ subQueryMatches (mkSearchQuery types ids events []) command).
Proof.
  apply matchCommand_addSubQuery.
Qed.

(** X11. [Or] opens a second alternative on the builder, whatever sub
    query it is called on: a new builder given one sub query and, through
    [Or], another matches exactly the commands that one of the two
    matches. *)
Theorem Or_alternatives (columns : Columns) (query : QueryRef)
    (types1 types2 : list AggregateType) (ids1 ids2 : list string)
    (events1 events2 : list EventType) (command : Command) :
  matchCommand
    (orSubQuery query types2 ids2 events2
       (addSubQuery types1 ids1 events1 (NewSearchQueryBuilder columns)))
    command = true
  <-> subQueryMatches (mkSearchQuery types1 ids1 events1 []) command
      \/ subQueryMatches (mkSearchQuery types2 ids2 events2 []) command.
Proof.
  change (orSubQuery query types2 ids2 events2) with (addSubQuery types2 ids2 events2).
  rewrite matchCommand_addSubQuery, queries_addSubQuery; simpl.
  split.
  - intros (_ & [(q & [<- | [ ]] & Hm) | Hm]); auto.
  - intros Hm; split.
    + split; [ left; reflexivity | split; [ right; left; reflexivity | ] ].
      unfold sequenceGate; simpl.
      destruct (Command_Sequence command); [ left; reflexivity | exact I ].
    + destruct Hm as [Hm | Hm]; [ left; eexists; split; [ left; reflexivity | exact Hm ]
                                | right; exact Hm ].
Qed.

(** X12. A pointer to a sub query stays good when the builder grows:
    assigning through it and adding a sub query commute, and the pointer
    [AddQuery] then returns is another one. *)
Theorem through_AddQuery (query : QueryRef) (set : SearchQuery -> SearchQuery)
    (builder : SearchQueryBuilder) :
  (query < List.length (queries builder))%nat ->
  through query set (fst (AddQueryAt builder))
  = fst (AddQueryAt (through query set builder))
  /\ snd (AddQueryAt builder) <> query.
Proof.
  intros Hlt; split; [ | simpl; lia ].
  unfold through, AddQueryAt, AddQuery, setQueries; simpl.
  rewrite assign_app_l by exact Hlt; reflexivity.
Qed.

Lemma through_AddQuery_witness :
  through 0 (AggregateIDs ["u1"; "u2"]) (fst (AddQueryAt twoSubQueries))
  = fst (AddQueryAt (through 0 (AggregateIDs ["u1"; "u2"]) twoSubQueries)).
Proof.
  apply (through_AddQuery 0 (AggregateIDs ["u1"; "u2"]) twoSubQueries).
  simpl; lia.
Defined.

End SubQueries.

(* ------------------------------------------------------------------ *)
(** ** The instance of the context, and the creation-date bounds *)

Section InstanceAndDates.

Import eventstore.

(** X13. With an instance in the context, [ensureInstanceID] leaves a
    builder whose instance ID is set: to the one it had, were it the
    empty string, and to the context's otherwise.  What is set stays: a
    second call, with whatever context, changes nothing. *)
Theorem ensureInstanceID_sets_once (ctxInstanceID : string) (b : SearchQueryBuilder) :
  ctxInstanceID <> "" ->
  instanceID (ensureInstanceID ctxInstanceID b)
  = Some match instanceID b with Some id => id | None => ctxInstanceID end
  /\ forall other : string,
       ensureInstanceID other (ensureInstanceID ctxInstanceID b)
       = ensureInstanceID ctxInstanceID b.
Proof.
  intros Hne; apply String.eqb_neq in Hne.
  unfold ensureInstanceID; rewrite Hne.
  destruct (instanceID b) as [id | ] eqn:Hid; simpl.
  - rewrite Hid; split; [ reflexivity | intros other; reflexivity ].
  - split; [ reflexivity | intros other; reflexivity ].
Qed.

Lemma ensureInstanceID_sets_once_witness :
  instanceID (ensureInstanceID "tenant-y" twoSubQueries) = Some "tenant-y"
  /\ instanceID (ensureInstanceID "tenant-y" tenantX) = Some "tenant-x"
  /\ ensureInstanceID "tenant-x" (ensureInstanceID "tenant-y" twoSubQueries)
     = ensureInstanceID "tenant-y" twoSubQueries.
Proof.
  assert (Hne : "tenant-y" <> "") by discriminate.
  repeat apply conj.
  - apply (proj1 (ensureInstanceID_sets_once "tenant-y" twoSubQueries Hne)).
  - apply (proj1 (ensureInstanceID_sets_once "tenant-y" tenantX Hne)).
  - apply (proj2 (ensureInstanceID_sets_once "tenant-y" twoSubQueries Hne)).
Defined.

(** X14. On a builder without instance ID, [ensureInstanceID] with an
    instance in the context narrows the matches to the commands of that
    instance and the commands without instance. *)
Theorem ensureInstanceID_scopes (ctxInstanceID : string) (b : SearchQueryBuilder)
    (command : Command) :
  instanceID b = None ->
  ctxInstanceID <> "" ->
  matchCommand (ensureInstanceID ctxInstanceID b) command
  = (String.eqb (Aggregate_InstanceID (Command_Aggregate command)) ""
     || String.eqb (Aggregate_InstanceID (Command_Aggregate command)) ctxInstanceID)
    && matchCommand b command.
Proof.
  intros Hnone Hne; apply String.eqb_neq in Hne.
  unfold ensureInstanceID; rewrite Hnone, Hne; simpl.
  unfold matchCommand; simpl; rewrite Hnone, Hne; simpl.
  destruct (negb (String.eqb (resourceOwner b) "") && _);
    [ rewrite andb_false_r; reflexivity | ].
  rewrite andb_false_r.
  destruct (String.eqb (Aggregate_InstanceID (Command_Aggregate command)) "");
    destruct (String.eqb (Aggregate_InstanceID (Command_Aggregate command))
                ctxInstanceID); reflexivity.
Qed.

Lemma ensureInstanceID_scopes_witness :
  matchCommand (ensureInstanceID "tenant-x" twoSubQueries) noTenant = true
  /\ matchCommand (ensureInstanceID "tenant-x" twoSubQueries) tenantY = false
  /\ matchCommand twoSubQueries tenantY = true.
Proof.
  repeat apply conj.
  - rewrite (ensureInstanceID_scopes "tenant-x" twoSubQueries noTenant);
      [ reflexivity | reflexivity | discriminate ].
  - rewrite (ensureInstanceID_scopes "tenant-x" twoSubQueries tenantY);
      [ reflexivity | reflexivity | discriminate ].
  - reflexivity.
Defined.

Lemma zero_is_not_epoch : time.Unix time.zero <> 0%Z.
Proof.
  vm_compute; discriminate.
Qed.

Lemma applyDateCall_keeps (call : DateCall) (b : SearchQueryBuilder) :
  (time.IsZero (GetCreationDateAfter b) = false ->
   time.IsZero (GetCreationDateAfter (applyDateCall b call)) = false)
  /\ (time.IsZero (GetCreationDateBefore b) = false ->
      time.IsZero (GetCreationDateBefore (applyDateCall b call)) = false)
  /\ (time.Unix (GetCreationDateAfter b) <> 0%Z ->
      time.Unix (GetCreationDateAfter (applyDateCall b call)) <> 0%Z)
  /\ (time.Unix (GetCreationDateBefore b) <> 0%Z ->
      time.Unix (GetCreationDateBefore (applyDateCall b call)) <> 0%Z).
Proof.
  destruct call as [t | t]; simpl;
    unfold CreationDateAfter, CreationDateBefore;
    destruct (time.IsZero t || (time.Unix t =? 0)%Z) eqn:Hguard;
    try (repeat split; intros H; exact H);
    apply kept_timestamp in Hguard; destruct Hguard as [Hz Hu];
    repeat split; simpl; intros H; assumption.
Qed.

(** X15. Through any calls of [CreationDateAfter] and [CreationDateBefore],
    with zero, epoch or other arguments, a bound that is set is never
    cleared, and a bound whose Unix time is not 0 never becomes one whose
    Unix time is 0. *)
Theorem creationDate_bounds_kept (calls : list DateCall) (b : SearchQueryBuilder) :
  let b' := fold_left applyDateCall calls b in
  (time.IsZero (GetCreationDateAfter b) = false ->
   time.IsZero (GetCreationDateAfter b') = false)
  /\ (time.IsZero (GetCreationDateBefore b) = false ->
      time.IsZero (GetCreationDateBefore b') = false)
  /\ (time.Unix (GetCreationDateAfter b) <> 0%Z ->
      time.Unix (GetCreationDateAfter b') <> 0%Z)
  /\ (time.Unix (GetCreationDateBefore b) <> 0%Z ->
      time.Unix (GetCreationDateBefore b') <> 0%Z).
Proof.
  revert b; induction calls as [ | call calls IH ]; intros b; simpl.
  - auto.
  - destruct (applyDateCall_keeps call b) as (Ka & Kb & Kua & Kub).
    destruct (IH (applyDateCall b call)) as (Ia & Ib & Iua & Iub).
    repeat split; auto.
Qed.

(** Bounds set to a day after the epoch survive calls with the zero value
    and with the epoch; the bounds of a new builder, which are the zero
    value, never get Unix time 0. *)
Lemma creationDate_bounds_kept_witness :
  let day := time.mkTime (time.unixToInternal + 86400) 0 in
  let calls := [CallCreationDateAfter time.zero; CallCreationDateBefore time.epoch] in
  let set :=
    CreationDateBefore day (CreationDateAfter day (NewSearchQueryBuilder ColumnsEvent)) in
  (time.IsZero (GetCreationDateAfter (fold_left applyDateCall calls set)) = false
   /\ time.IsZero (GetCreationDateBefore (fold_left applyDateCall calls set)) = false)
  /\ time.Unix (GetCreationDateAfter
                  (fold_left applyDateCall calls (NewSearchQueryBuilder ColumnsEvent)))
     <> 0%Z.
Proof.
  intros day calls set.
  destruct (creationDate_bounds_kept calls set) as (Ka & Kb & _ & _).
  destruct (creationDate_bounds_kept calls (NewSearchQueryBuilder ColumnsEvent))
    as (_ & _ & Kua & _).
  split; [ split; [ apply Ka | apply Kb ]; reflexivity | ].
  apply Kua; exact zero_is_not_epoch.
Defined.

End InstanceAndDates.

(* ------------------------------------------------------------------ *)
(** ** Further properties of the append-and-reduce protocol *)

Section AppendReduceCalls.

Import errors eventstore command.

(** X16. When [Push] succeeds, [pushAppendAndReduce] hands the persisted
    events to [AppendEvents], then calls [Reduce], each once and in this
    order, and returns what [Reduce] returns.  It does so for an empty
    list of events too. *)
Theorem pushAppendAndReduce_pushed {ES O : Type} `{Pusher ES} `{AppendReducer O}
    (c : Commands ES) (object : O) (cmds : list Command)
    (es : ES) (events : list Event) :
  Push (Commands_eventstore c) cmds = (es, (events, None)) ->
  pushAppendAndReduce c object cmds
  = (mkCommands es, fst (Reduce (AppendEvents events object)),
     snd (Reduce (AppendEvents events object)))
  /\ traced_calls (snd (fst (pushAppendAndReduce c (trace object) cmds)))
     = [CallAppendEvents events; CallReduce].
Proof.
  intros Hpush; unfold pushAppendAndReduce, AppendAndReduce; rewrite Hpush; simpl.
  destruct (Reduce (AppendEvents events object)) as [object' err]; simpl.
  split; reflexivity.
Qed.

(** A store that accepts the push: the write model folds the event; an
    object whose [Reduce] fails makes the whole call fail with that
    error, the events appended; and with no event persisted [Reduce] is
    still called. *)
Lemma pushAppendAndReduce_pushed_witness :
  pushAppendAndReduce (acceptingStore [org1Added]) (NewOrgWriteModel "org-1") [addOrg1]
  = (mkCommands (mkMockStore ([org1Added], None) [[addOrg1]]),
     mkOrgWriteModel "org-1" [] 1 true, None)
  /\ pushAppendAndReduce (acceptingStore [org1Added]) (mkFragile []) [addOrg1]
  = (mkCommands (mkMockStore ([org1Added], None) [[addOrg1]]),
     mkFragile [org1Added], Some reduceFailed)
  /\ traced_calls
       (snd (fst (pushAppendAndReduce (acceptingStore []) (trace (mkFragile [])) [])))
     = [CallAppendEvents []; CallReduce].
Proof.
  assert (Hpush : Push (Commands_eventstore (acceptingStore [org1Added])) [addOrg1]
                  = (mkMockStore ([org1Added], None) [[addOrg1]], ([org1Added], None)))
    by reflexivity.
  assert (Hnone : Push (Commands_eventstore (acceptingStore [])) []
                  = (mkMockStore ([], None) [[]], ([], None)))
    by reflexivity.
  repeat apply conj.
  - rewrite (proj1 (pushAppendAndReduce_pushed (acceptingStore [org1Added])
                      (NewOrgWriteModel "org-1") [addOrg1] _ _ Hpush)).
    reflexivity.
  - rewrite (proj1 (pushAppendAndReduce_pushed (acceptingStore [org1Added])
                      (mkFragile []) [addOrg1] _ _ Hpush)).
    reflexivity.
  - apply (proj2 (pushAppendAndReduce_pushed (acceptingStore [])
                    (mkFragile []) [] _ _ Hnone)).
Defined.

(** X17. When the filter returns events, [queryAndReduce] hands all of
    them to [AppendEvents], then calls [Reduce], each once and in this
    order, and returns what [Reduce] returns, its error included. *)
Theorem queryAndReduce_replays {W : Type} `{QueryReducer W}
    (filter : FilterToQueryReducer) (wm : W) (events : list Event) :
  filter (Query wm) = (events, None) ->
  events <> [] ->
  queryAndReduce filter wm = Reduce (AppendEvents events wm)
  /\ traced_calls (fst (queryAndReduce filter (trace wm)))
     = [CallAppendEvents events; CallReduce].
Proof.
  intros Hf Hne; split.
  - apply queryAndReduce_events; assumption.
  - assert (Ht : filter (Query (trace wm)) = (events, None)) by exact Hf.
    rewrite (queryAndReduce_events filter (trace wm) events Ht Hne); simpl.
    destruct (Reduce (AppendEvents events wm)); reflexivity.
Qed.

Lemma queryAndReduce_replays_witness :
  queryAndReduce (filterOver [org2Added; org1Added]) (NewOrgWriteModel "org-1")
  = (mkOrgWriteModel "org-1" [] 1 true, None)
  /\ traced_calls
       (fst (queryAndReduce (filterOver [org2Added; org1Added])
               (trace (NewOrgWriteModel "org-1"))))
     = [CallAppendEvents [org1Added]; CallReduce].
Proof.
  assert (Hf : filterOver [org2Added; org1Added] (Query (NewOrgWriteModel "org-1"))
               = ([org1Added], None)) by reflexivity.
  destruct (queryAndReduce_replays (filterOver [org2Added; org1Added])
              (NewOrgWriteModel "org-1") [org1Added] Hf)
    as [Hres Hcalls]; [ discriminate | ].
  split; [ rewrite Hres; reflexivity | exact Hcalls ].
Defined.

(** X18. When the filter fails, [queryAndReduce] returns the filter's
    error as it is and [exists] returns false with it, whatever [Exists()]
    says of the model; the model is as it was, the events the filter
    returned beside its error are dropped, and neither [AppendEvents] nor
    [Reduce] is called. *)
Theorem filter_error_propagates {W : Type} `{existsWriteModel W}
    (filter : FilterToQueryReducer) (wm : W) (events : list Event) (err : error) :
  filter (Query wm) = (events, Some err) ->
  queryAndReduce filter wm = (wm, Some err)
  /\ exists_ filter wm = (wm, (false, Some err))
  /\ traced_calls (fst (exists_ filter (trace wm))) = [].
Proof.
  intros Hf.
  assert (Hq : queryAndReduce filter wm = (wm, Some err))
    by (apply (queryAndReduce_filter_error filter wm events err Hf)).
  repeat split; [ exact Hq | | ]; unfold exists_.
  - rewrite Hq; reflexivity.
  - unfold queryAndReduce; cbn; rewrite Hf; reflexivity.
Qed.

(** A filter that fails, asked about a model that says it exists. *)
Lemma filter_error_propagates_witness :
  exists_ (fun _ => ([org1Added], Some conflict)) (mkOrgWriteModel "org-1" [] 1 true)
  = (mkOrgWriteModel "org-1" [] 1 true, (false, Some conflict)).
Proof.
  apply (filter_error_propagates (fun _ => ([org1Added], Some conflict))
           (mkOrgWriteModel "org-1" [] 1 true) [org1Added] conflict).
  reflexivity.
Defined.

End AppendReduceCalls.

(* ------------------------------------------------------------------ *)
(** ** Further properties of the org-member projection *)

Section OrgMemberEvents.

Import errors view.

Variable dec : Unmarshaler.
Variables added changed : models.EventType.

(** X19. Whatever the event, its type and its payload, and whether
    decoding fails or not, [AppendEvent] sets the record's sequence and
    change date to the event's, also when the record's sequence was
    higher, and leaves [UserName], [Email], [FirstName] and [LastName] as
    they were. *)
Theorem AppendEvent_watermark (r : OrgMemberView) (event : models.Event) :
  let r' := fst (AppendEvent dec added changed r event) in
  Sequence r' = models.Sequence event
  /\ ChangeDate r' = models.CreationDate event
  /\ (UserName r', Email r', FirstName r', LastName r')
     = (UserName r, Email r, FirstName r, LastName r).
Proof.
  unfold AppendEvent, SetData, setRootData; cbn.
  destruct (String.eqb (models.Type_ event) added);
    [ | destruct (String.eqb (models.Type_ event) changed) ];
    try (destruct (dec (models.Data event) (UserID r, Roles r))
           as [[userID roles] [err | ]]);
    cbn; repeat split.
Qed.

(** X20. An event that is neither an "added" nor a "changed" one is not
    decoded: [AppendEvent] returns no error, whatever the payload, and
    changes nothing but the sequence and the change date. *)
Theorem AppendEvent_other_event (r : OrgMemberView) (event : models.Event) :
  models.Type_ event <> added ->
  models.Type_ event <> changed ->
  let r' := fst (AppendEvent dec added changed r event) in
  snd (AppendEvent dec added changed r event) = None
  /\ businessFields r' = businessFields r
  /\ CreationDate r' = CreationDate r.
Proof.
  intros Ha Hc; apply String.eqb_neq in Ha, Hc.
  unfold AppendEvent; rewrite Ha, Hc; cbn.
  repeat split.
Qed.

(** X21. An "added" or "changed" event whose payload decodes: no error;
    [UserID] and [Roles] are what the decoder assigned.  An "added" event
    binds the record to the event's aggregate and dates its creation; a
    "changed" event leaves [OrgID] and the creation date alone. *)
Theorem AppendEvent_decoded (r : OrgMemberView) (event : models.Event)
    (fields : JSONFields) :
  models.Type_ event = added \/ models.Type_ event = changed ->
  dec (models.Data event) (UserID r, Roles r) = (fields, None) ->
  let r' := fst (AppendEvent dec added changed r event) in
  snd (AppendEvent dec added changed r event) = None
  /\ (UserID r', Roles r') = fields
  /\ (OrgID r', CreationDate r')
     = if String.eqb (models.Type_ event) added
       then (models.AggregateID event, models.CreationDate event)
       else (OrgID r, CreationDate r).
Proof.
  intros Htype Hdec; unfold AppendEvent, SetData, setRootData.
  destruct (String.eqb_spec (models.Type_ event) added) as [Hadded | Hother].
  - cbn; rewrite Hdec; destruct fields; cbn; repeat split.
  - destruct (String.eqb_spec (models.Type_ event) changed) as [Hchanged | Hnone];
      [ | destruct Htype; contradiction ].
    cbn; rewrite Hdec; destruct fields; cbn; repeat split.
Qed.

(** X22. [AppendEvent] fails exactly on an "added" or "changed" event
    whose payload the decoder refuses, and the only error it returns is
    an internal one. *)
Theorem AppendEvent_fails_iff (r : OrgMemberView) (event : models.Event) :
  ((exists err, snd (AppendEvent dec added changed r event) = Some err)
   <-> (models.Type_ event = added \/ models.Type_ event = changed)
       /\ exists cause,
            snd (dec (models.Data event) (UserID r, Roles r)) = Some cause)
  /\ match snd (AppendEvent dec added changed r event) with
     | Some err => IsInternal err = true
     | None => True
     end.
Proof.
  unfold AppendEvent, SetData, setRootData.
  destruct (String.eqb_spec (models.Type_ event) added) as [Hadded | Hother];
    [ | destruct (String.eqb_spec (models.Type_ event) changed)
          as [Hchanged | Hnone] ];
    cbn;
    try (destruct (dec (models.Data event) (UserID r, Roles r))
           as [[userID roles] [cause | ]]; cbn).
  all: split; [ split | try exact I; try reflexivity ].
  all: try (intros (err & Herr); discriminate).
  all: try (intros (_ & cause' & Hcause); discriminate).
  all: try (intros ([Ht | Ht] & _); contradiction).
  all: try (intros _; split; [ auto | eexists; reflexivity ]).
  all: eexists; reflexivity.
Qed.

End OrgMemberEvents.

Section OrgMemberEventsScenarios.

Import errors view.

(** An event of another type with a payload that is not JSON. *)
Lemma AppendEvent_other_event_witness :
  AppendEvent emptyObjectDecoder memberAdded memberChanged someMember
    (brokenEvent "org.member.removed")
  = ({| UserID := "user-1"; OrgID := "org-0"; UserName := "gigi";
        Email := "gigi@example.com"; FirstName := "Gigi"; LastName := "Giraffe";
        Roles := ["ORG_OWNER"]; Sequence := 7;
        CreationDate := time.epoch; ChangeDate := later |}, None).
Proof.
  destruct (AppendEvent_other_event emptyObjectDecoder memberAdded memberChanged
              someMember (brokenEvent "org.member.removed"))
    as (Herr & _ & _); try discriminate.
  reflexivity.
Defined.

(** An "added" and a "changed" event that assign a user and its roles. *)
Lemma AppendEvent_decoded_witness :
  let dec := assigningDecoder ("user-2", ["ORG_ADMIN"]) in
  businessFields (fst (AppendEvent dec memberAdded memberChanged someMember
                         (emptyObjectEvent memberAdded)))
  = ("user-2", "org-1", "gigi", "gigi@example.com", "Gigi", "Giraffe", ["ORG_ADMIN"])
  /\ businessFields (fst (AppendEvent dec memberAdded memberChanged someMember
                            (emptyObjectEvent memberChanged)))
  = ("user-2", "org-0", "gigi", "gigi@example.com", "Gigi", "Giraffe", ["ORG_ADMIN"]).
Proof.
  intros dec.
  destruct (AppendEvent_decoded dec memberAdded memberChanged someMember
              (emptyObjectEvent memberAdded) ("user-2", ["ORG_ADMIN"])
              (or_introl eq_refl) eq_refl) as (_ & Hfa & Hoa).
  destruct (AppendEvent_decoded dec memberAdded memberChanged someMember
              (emptyObjectEvent memberChanged) ("user-2", ["ORG_ADMIN"])
              (or_intror eq_refl) eq_refl) as (_ & Hfc & Hoc).
  split; reflexivity.
Defined.

(** X23. [OrgMembersToModel] converts the records one by one: the result
    has the length of the argument and holds at each index the conversion
    of the record at that index; converting every element back gives the
    argument again. *)
Theorem OrgMembersToModel_elementwise (roles : list OrgMemberView) :
  List.length (OrgMembersToModel roles) = List.length roles
  /\ (forall i : nat,
        nth_error (OrgMembersToModel roles) i
        = option_map OrgMemberToModel (nth_error roles i))
  /\ map OrgMemberViewFromModel (OrgMembersToModel roles) = roles.
Proof.
  unfold OrgMembersToModel; repeat split.
  - apply length_map.
  - intros i; apply nth_error_map.
  - rewrite map_map; induction roles as [ | r rest IH ]; simpl; [ reflexivity | ].
    rewrite IH; destruct r; reflexivity.
Qed.

End OrgMemberEventsScenarios.
